(** * terminal_monitoring: session reconciliation over a SQLite store

    A shallow embedding of [terminal_monitoring.py].  The script polls a
    list of terminal servers with [quser], merges the reported sessions into
    one snapshot, and reconciles the snapshot with two tables,
    [ActiveSessions] (keyed by [SessionId]) and [Users] (keyed by
    [Username]).

    Conventions of the embedding:
    - text is [string]; a character is a code point below 256 and is
      classified the way Python classifies it;
    - a [datetime] is the number of microseconds since 0001-01-01 00:00:00,
      a [timedelta] the difference of two of them;
    - [round(x / 60)] on the float [x = total_seconds()] is taken on the
      exact quotient, with Python's ties-to-even rule;
    - [INTEGER] columns are [Z];
    - the [Users] table is a [gmap] from the primary key, the
      [ActiveSessions] table the list of its rows in rowid order, which is
      the order [SELECT] returns them in;
    - an exception that leaves a function is a constructor of its result. *)

From Stdlib Require Import ZArith List Ascii String Bool Lia.
From stdpp Require Import base option list gmap strings.
Import ListNotations.

Local Open Scope string_scope.
Local Open Scope Z_scope.

(** ** Python text primitives *)

Module Py.

Definition ord (c : ascii) : Z := Z.of_N (N_of_ascii c).

(** [str.isspace] on one character. *)
Definition isspace (c : ascii) : bool :=
  let n := ord c in
  ((9 <=? n) && (n <=? 13)) || ((28 <=? n) && (n <=? 32))
  || (n =? 133) || (n =? 160).

(** The decimal digits matched by [\d]. *)
Definition is_dec (c : ascii) : bool :=
  let n := ord c in (48 <=? n) && (n <=? 57).

(** [str.isdigit] on one character: the decimal digits and the three
    superscript digits of Latin-1. *)
Definition isdigit_char (c : ascii) : bool :=
  let n := ord c in
  is_dec c || (n =? 178) || (n =? 179) || (n =? 185).

(** Line boundaries of [str.splitlines], CR LF apart. *)
Definition is_linebreak (c : ascii) : bool :=
  let n := ord c in
  ((10 <=? n) && (n <=? 13)) || ((28 <=? n) && (n <=? 30)) || (n =? 133).

Definition chars (s : string) : list ascii := list_ascii_of_string s.
Definition str (l : list ascii) : string := string_of_list_ascii l.

(** [s.isdigit()] *)
Definition isdigit (s : string) : bool :=
  match chars s with
  | [] => false
  | l => forallb isdigit_char l
  end.

Fixpoint lstrip (l : list ascii) : list ascii :=
  match l with
  | c :: r => if isspace c then lstrip r else l
  | [] => []
  end.

(** [s.strip()] *)
Definition strip (s : string) : string :=
  str (rev (lstrip (rev (lstrip (chars s))))).

Fixpoint is_prefix (p l : list ascii) : bool :=
  match p, l with
  | [], _ => true
  | a :: p', b :: l' => if Ascii.eqb a b then is_prefix p' l' else false
  | _ :: _, [] => false
  end.

Fixpoint contains_chars (p l : list ascii) : bool :=
  is_prefix p l ||
  match l with
  | [] => false
  | _ :: r => contains_chars p r
  end.

(** [p in s] *)
Definition contains (p s : string) : bool := contains_chars (chars p) (chars s).

(** [s.split()]: the maximal runs of characters that are not white space.
    [cur] is the run being read, reversed. *)
Fixpoint split_go (cur : list ascii) (l : list ascii) : list string :=
  match l with
  | [] => match cur with [] => [] | _ => [str (rev cur)] end
  | c :: r =>
      if isspace c
      then match cur with
           | [] => split_go [] r
           | _ => str (rev cur) :: split_go [] r
           end
      else split_go (c :: cur) r
  end.

Definition split (s : string) : list string := split_go [] (chars s).

(** [s.splitlines()]: a line ends at a boundary character, CR LF counts as
    one boundary, and no empty line is reported after the last boundary. *)
Fixpoint splitlines_go (cur : list ascii) (l : list ascii) : list string :=
  match l with
  | [] => match cur with [] => [] | _ => [str (rev cur)] end
  | c :: r =>
      if is_linebreak c
      then str (rev cur) ::
           match r with
           | c' :: r' =>
               if (ord c =? 13) && (ord c' =? 10)
               then splitlines_go [] r'
               else splitlines_go [] r
           | [] => []
           end
      else splitlines_go (c :: cur) r
  end.

Definition splitlines (s : string) : list string := splitlines_go [] (chars s).

(** [l[-1]] and [l[-2]] of a list known to be long enough; the empty
    string stands for the [IndexError] the caller rules out. *)
Definition last1 (l : list string) : string := List.last l "".
Definition last2 (l : list string) : string := List.last (removelast l) "".

(** [round(n / d)] for [d > 0], on the exact quotient: to the nearest
    integer, a tie to the even one. *)
Definition round_div (n d : Z) : Z :=
  let q := n / d in
  let r := n mod d in
  if 2 * r <? d then q
  else if d <? 2 * r then q + 1
  else if Z.even q then q else q + 1.

End Py.

(** ** [datetime] and [datetime.strptime(_, "%d.%m.%Y %H:%M")] *)

Module Datetime.

(** Microseconds since 0001-01-01 00:00:00. *)
Definition datetime : Type := Z.

Definition is_leap (y : Z) : bool :=
  ((y mod 4 =? 0) && negb (y mod 100 =? 0)) || (y mod 400 =? 0).

Definition days_in_month (y m : Z) : Z :=
  if m =? 2 then (if is_leap y then 29 else 28)
  else if (m =? 4) || (m =? 6) || (m =? 9) || (m =? 11) then 30
  else 31.

Definition days_before_year (y : Z) : Z :=
  let p := y - 1 in p * 365 + p / 4 - p / 100 + p / 400.

Fixpoint days_before_month_go (y : Z) (n : nat) : Z :=
  match n with
  | O => 0
  | S k => days_before_month_go y k + days_in_month y (Z.of_nat (S k))
  end.

(** Days of year [y] before the first of month [m]. *)
Definition days_before_month (y m : Z) : Z :=
  days_before_month_go y (Z.to_nat (m - 1)).

(** [date.toordinal()]: 0001-01-01 is day 1. *)
Definition toordinal (y m d : Z) : Z :=
  days_before_year y + days_before_month y m + d.

(** [datetime(y, m, d, H, M, S, us)]; [None] is the [ValueError] of a
    field out of range. *)
Definition make (y m d H M S us : Z) : option datetime :=
  if (1 <=? y) && (y <=? 9999) && (1 <=? m) && (m <=? 12)
     && (1 <=? d) && (d <=? days_in_month y m)
     && (0 <=? H) && (H <=? 23) && (0 <=? M) && (M <=? 59)
     && (0 <=? S) && (S <=? 59) && (0 <=? us) && (us <=? 999999)
  then Some ((((toordinal y m d - 1) * 24 + H) * 60 + M) * 60000000
             + S * 1000000 + us)
  else None.

(** *** The regular expression of the format

    [_strptime] turns the format into
    [(?P<d>3[0-1]|[1-2]\d|0[1-9]|[1-9]| [1-9])\.(?P<m>1[0-2]|0[1-9]|[1-9])\.(?P<Y>\d\d\d\d)\s+(?P<H>2[0-3]|[0-1]\d|\d):(?P<M>[0-5]\d|\d)],
    matches it at the start of the text and refuses text left over.  A
    group is the list of its alternatives' matches in the order the
    expression tries them; [alt] hands each to the rest of the expression
    and keeps the first that lets the whole match succeed. *)

Definition dig (c : ascii) : Z := Py.ord c - 48.

Definition between (lo hi : Z) (c : ascii) : bool :=
  Py.is_dec c && (lo <=? dig c) && (dig c <=? hi).

Definition two (p1 p2 : ascii -> bool) (l : list ascii) : list (Z * list ascii) :=
  match l with
  | a :: b :: r => if p1 a && p2 b then [(10 * dig a + dig b, r)] else []
  | _ => []
  end.

Definition one (p : ascii -> bool) (l : list ascii) : list (Z * list ascii) :=
  match l with
  | a :: r => if p a then [(dig a, r)] else []
  | _ => []
  end.

Definition blank_one (p : ascii -> bool) (l : list ascii) : list (Z * list ascii) :=
  match l with
  | a :: b :: r => if (Py.ord a =? 32) && p b then [(dig b, r)] else []
  | _ => []
  end.

Definition group_d (l : list ascii) : list (Z * list ascii) :=
  two (between 3 3) (between 0 1) l ++ two (between 1 2) Py.is_dec l
  ++ two (between 0 0) (between 1 9) l ++ one (between 1 9) l
  ++ blank_one (between 1 9) l.

Definition group_m (l : list ascii) : list (Z * list ascii) :=
  two (between 1 1) (between 0 2) l ++ two (between 0 0) (between 1 9) l
  ++ one (between 1 9) l.

Definition group_Y (l : list ascii) : list (Z * list ascii) :=
  match l with
  | a :: b :: c :: d :: r =>
      if Py.is_dec a && Py.is_dec b && Py.is_dec c && Py.is_dec d
      then [(1000 * dig a + 100 * dig b + 10 * dig c + dig d, r)] else []
  | _ => []
  end.

Definition group_H (l : list ascii) : list (Z * list ascii) :=
  two (between 2 2) (between 0 3) l ++ two (between 0 1) Py.is_dec l
  ++ one Py.is_dec l.

Definition group_M (l : list ascii) : list (Z * list ascii) :=
  two (between 0 5) Py.is_dec l ++ one Py.is_dec l.

Fixpoint alt {A} (cands : list (Z * list ascii))
    (k : Z -> list ascii -> option A) : option A :=
  match cands with
  | [] => None
  | (v, r) :: cs => match k v r with Some a => Some a | None => alt cs k end
  end.

(** A literal character. *)
Definition lit {A} (c : Z) (l : list ascii) (k : list ascii -> option A) : option A :=
  match l with
  | a :: r => if Py.ord a =? c then k r else None
  | [] => None
  end.

(** [\s+]: the group after it starts with a digit, so of the prefixes of
    the run of white space only the whole run can be followed by it. *)
Definition spaces {A} (l : list ascii) (k : list ascii -> option A) : option A :=
  match l with
  | a :: r => if Py.isspace a then k (Py.lstrip r) else None
  | [] => None
  end.

(** The fields of the first match, with the text left after it. *)
Definition regex_match (l : list ascii) : option (Z * Z * Z * Z * Z * list ascii) :=
  alt (group_d l) (fun d l =>
  lit 46 l (fun l =>
  alt (group_m l) (fun m l =>
  lit 46 l (fun l =>
  alt (group_Y l) (fun Y l =>
  spaces l (fun l =>
  alt (group_H l) (fun H l =>
  lit 58 l (fun l =>
  alt (group_M l) (fun M l => Some (d, m, Y, H, M, l)))))))))).

(** [datetime.strptime(s, "%d.%m.%Y %H:%M")]; [None] is [ValueError]: no
    match, unconverted data, or a day the month does not have. *)
Definition strptime (s : string) : option datetime :=
  match regex_match (Py.chars s) with
  | Some (d, m, Y, H, M, []) => make Y m d H M 0 0
  | _ => None
  end.

(** [round((now - t).total_seconds() / 60)], on the exact quotient.  The
    two float divisions of the source give the same minute for spans of
    decades; for spans of centuries they can give the neighbouring minute
    when the span is within a microsecond of a half minute. *)
Definition minutes_between (now t : datetime) : Z :=
  Py.round_div (now - t) 60000000.

End Datetime.

(** ** The data model *)

(** One dictionary of the list [get_active_sessions] returns. *)
Record Session := mkSession {
  Username : string;
  SessionId : string;
  State : string;
  LogonTime : string
}.

(** A row [(SessionId, Username, LogonTime)] of [ActiveSessions]. *)
Definition Row : Type := string * string * string.

Definition row_id (r : Row) : string := r.1.1.
Definition row_user (r : Row) : string := r.1.2.
Definition row_logon (r : Row) : string := r.2.

(** The two tables of [sessions.db], as committed. *)
Record DB := mkDB {
  Users : gmap string Z;
  ActiveSessions : list Row
}.

(** [subprocess.run(['quser', '/server:...'], capture_output=True,
    timeout=30, encoding='ibm866')]: a completed process, the timeout, or
    any other exception. *)
Inductive RunResult :=
| Completed (returncode : Z) (stdout stderr : string)
| TimeoutExpired
| OtherException.

(** What the engine answers to the write of the connection that
    [update_user_time] opens while the connection of
    [check_completed_sessions] is in its transaction: the statement is
    executed and committed, or [sqlite3.Error] is raised (a locked database,
    a full disk), which [update_user_time] catches and logs.  SQLite lets
    one connection write at a time: with its default locking the outer
    transaction holds the write lock from its first [DELETE] on, and the
    nested statement ends in [database is locked]. *)
Inductive Answer := Done | SqliteError.

(** The answers of one cycle, by the position of the call in
    [completed_sessions]. *)
Definition Engine : Type := nat -> Answer.

(** ** [get_active_sessions] *)

Definition SERVERS : list string := ["server1"; "server2"; "server3"].

(** The body of the [for line in lines] loop; [None] when the line adds no
    session. *)
Definition parse_line (line : string) : option Session :=
  let parts := Py.split line in
  if (5 <=? length parts)%nat then
    let username := nth 0 parts "" in
    let session_id := nth 2 parts "" in
    let state := nth 3 parts "" in
    let logon_time := Py.last2 parts +:+ " " +:+ Py.last1 parts in
    if negb (Py.isdigit session_id) then None
    else if bool_decide (username = "admin") then None
    else Some (mkSession username session_id state logon_time)
  else None.

Fixpoint parse_lines (lines : list string) : list Session :=
  match lines with
  | [] => []
  | line :: rest =>
      match parse_line line with
      | Some s => s :: parse_lines rest
      | None => parse_lines rest
      end
  end.

Definition get_active_sessions (result : RunResult) : list Session :=
  match result with
  | Completed returncode stdout stderr =>
      if negb (returncode =? 0) then []
      else
        let output := Py.strip stdout in
        if Py.contains "No users exist for *" output then []
        else parse_lines (tail (Py.splitlines output))
  | TimeoutExpired => []
  | OtherException => []
  end.

(** ** [update_user_time] *)

Definition update_user_time (answer : Answer)
    (username : string) (session_duration : Z)
    (users : gmap string Z) : gmap string Z :=
  if bool_decide (username = "admin") then users
  else match answer with
       | Done => <[username := default 0 (users !! username) + session_duration]> users
       | SqliteError => users
       end.

(** ** [check_completed_sessions] *)

(** [{session["SessionId"] for session in active_sessions}] *)
Definition session_ids (active_sessions : list Session) : gset string :=
  list_to_set (SessionId <$> active_sessions).

(** [DELETE FROM ActiveSessions WHERE SessionId = ?] *)
Definition delete_session (session_id : string) (tbl : list Row) : list Row :=
  filter (fun r => row_id r ≠ session_id) tbl.

(** [SELECT 1 FROM ActiveSessions WHERE SessionId = ?] followed by
    [fetchone()]: is there a row. *)
Definition session_exists (session_id : string) (tbl : list Row) : bool :=
  bool_decide (session_id ∈ row_id <$> tbl).

(** The loop over [db_sessions]: [completed] is [completed_sessions], [tbl]
    the table as the open transaction sees it.  [None] is the [ValueError]
    of [strptime]. *)
Fixpoint closeout (ids : gset string) (current_time : Datetime.datetime)
    (db_sessions : list Row) (completed : list (string * Z)) (tbl : list Row)
    : option (list (string * Z) * list Row) :=
  match db_sessions with
  | [] => Some (completed, tbl)
  | (session_id, username, logon_time_str) :: rest =>
      if bool_decide (session_id ∈ ids)
      then closeout ids current_time rest completed tbl
      else
        match Datetime.strptime logon_time_str with
        | None => None
        | Some logon_time =>
            let session_duration := Datetime.minutes_between current_time logon_time in
            closeout ids current_time rest
              (completed ++ [(username, session_duration)])
              (delete_session session_id tbl)
        end
  end.

(** The loop over [completed_sessions]; [i] counts the calls made. *)
Fixpoint update_all (engine : Engine) (i : nat) (completed : list (string * Z))
    (users : gmap string Z) : gmap string Z :=
  match completed with
  | [] => users
  | (username, duration) :: rest =>
      update_all engine (S i) rest
        (update_user_time (engine i) username duration users)
  end.

(** The contents of [Users] after each call of that loop: every call
    commits on its own connection. *)
Fixpoint user_commits (engine : Engine) (i : nat) (completed : list (string * Z))
    (users : gmap string Z) : list (gmap string Z) :=
  match completed with
  | [] => []
  | (username, duration) :: rest =>
      let users' := update_user_time (engine i) username duration users in
      users' :: user_commits engine (S i) rest users'
  end.

(** The loop over [active_sessions] that adds the new sessions. *)
Fixpoint add_new (active_sessions : list Session) (tbl : list Row) : list Row :=
  match active_sessions with
  | [] => tbl
  | session :: rest =>
      if session_exists (SessionId session) tbl
      then add_new rest tbl
      else add_new rest
             (tbl ++ [(SessionId session, Username session, LogonTime session)])
  end.

(** How a call ends: it returns, or [ValueError] leaves it (the handler is
    for [sqlite3.Error] only).  Either way [db] is the committed store. *)
Inductive Outcome :=
| Returned (db : DB)
| Raised (db : DB).

Definition store (o : Outcome) : DB :=
  match o with Returned db => db | Raised db => db end.

(** [current_time] is the [datetime.now()] of the call.  The statements on
    the function's own connection are taken to succeed; when [ValueError]
    leaves the [with] block the connection rolls back, and nothing has been
    written to [Users] by then. *)
Definition check_completed_sessions (engine : Engine)
    (current_time : Datetime.datetime)
    (active_sessions : list Session) (db : DB) : Outcome :=
  let db_sessions := ActiveSessions db in
  let active_session_ids := session_ids active_sessions in
  match closeout active_session_ids current_time db_sessions [] db_sessions with
  | None => Raised db
  | Some (completed_sessions, tbl) =>
      Returned (mkDB (update_all engine 0 completed_sessions (Users db))
                     (add_new active_sessions tbl))
  end.

(** The committed contents of the database file in the course of one call,
    in order: before it, after each commit of [update_user_time] (the
    deletions of the outer transaction are not committed yet), and after
    [conn.commit()].  A process that is interrupted leaves one of them. *)
Definition durable_states (engine : Engine)
    (current_time : Datetime.datetime)
    (active_sessions : list Session) (db : DB) : list DB :=
  let db_sessions := ActiveSessions db in
  match closeout (session_ids active_sessions) current_time db_sessions [] db_sessions with
  | None => [db]
  | Some (completed_sessions, tbl) =>
      db :: ((fun users => mkDB users db_sessions)
               <$> user_commits engine 0 completed_sessions (Users db))
         ++ [store (check_completed_sessions engine current_time active_sessions db)]
  end.

(** ** [main] *)

(** What one pass of the [while True] loop meets: the answer of [quser] for
    each server, the clock, and the engine's answers. *)
Record Cycle := mkCycle {
  quser : string -> RunResult;
  clock : Datetime.datetime;
  engine : Engine
}.

(** [all_active_sessions] *)
Definition poll (q : string -> RunResult) : list Session :=
  flat_map (fun server => get_active_sessions (q server)) SERVERS.

Definition cycle (c : Cycle) (db : DB) : Outcome :=
  check_completed_sessions (engine c) (clock c) (poll (quser c)) db.

(** The process after the cycles given: still in the loop, or out of it
    through [except Exception], which logs and lets [main] return. *)
Inductive Process := Looping | Stopped.

Fixpoint main (cycles : list Cycle) (db : DB) : Process * DB :=
  match cycles with
  | [] => (Looping, db)
  | c :: rest =>
      match cycle c db with
      | Returned db' => main rest db'
      | Raised db' => (Stopped, db')
      end
  end.

(** ** What one call does, read off the loops *)

(** The rows a call closes out, the rows it keeps, and the entry of
    [completed_sessions] a closed row gives. *)
Definition ended (ids : gset string) (rows : list Row) : list Row :=
  filter (fun r => row_id r ∉ ids) rows.

Definition kept (ids : gset string) (rows : list Row) : list Row :=
  filter (fun r => row_id r ∈ ids) rows.

Definition duration (now : Datetime.datetime) (r : Row) : Z :=
  match Datetime.strptime (row_logon r) with
  | Some t => Datetime.minutes_between now t
  | None => 0
  end.

Definition charge (now : Datetime.datetime) (r : Row) : string * Z :=
  (row_user r, duration now r).

(** The minutes the entries of a [completed_sessions] list hold for [u]. *)
Fixpoint charged (u : string) (completed : list (string * Z)) : Z :=
  match completed with
  | [] => 0
  | (username, d) :: rest =>
      (if bool_decide (username = u) then d else 0) + charged u rest
  end.

(** The minutes a call owes [u]: the durations of the rows of [u] that it
    closes out. *)
Definition owed (now : Datetime.datetime) (ids : gset string) (u : string)
    (rows : list Row) : Z :=
  charged u (charge now <$> ended ids rows).

(** [TotalMinutes] of [u], 0 when [u] has no row. *)
Definition total (db : DB) (u : string) : Z := default 0 (Users db !! u).

(** The row a session is stored as. *)
Definition row_of (s : Session) : Row := (SessionId s, Username s, LogonTime s).

(** No call of [update_user_time] in the cycle meets [sqlite3.Error]. *)
Definition accepts (e : Engine) : Prop := forall i, e i = Done.

Definition fetch_failed (result : RunResult) : bool :=
  match result with
  | Completed returncode _ _ => negb (returncode =? 0)
  | TimeoutExpired => true
  | OtherException => true
  end.

#[global] Instance Session_eq_dec : EqDecision Session.
Proof. solve_decision. Defined.

#[global] Instance Answer_eq_dec : EqDecision Answer.
Proof. solve_decision. Defined.

(** ** The records of one user and one session id

    [tracked u sid] picks the rows that belong to user [u] or are stored
    under the id [sid]; the lemmas follow them through the loops. *)

Definition tracked (u sid : string) (r : Row) : Prop :=
  row_user r = u \/ row_id r = sid.

#[global] Instance tracked_dec u sid r : Decision (tracked u sid r).
Proof. unfold tracked. apply _. Defined.

Definition records (u sid : string) (rows : list Row) : list Row :=
  filter (tracked u sid) rows.

(** A cycle in which the session with id [sid] is reported and every
    session of [u] carries that id, and one in which neither the user nor
    the id is reported. *)
Definition sees (u sid : string) (c : Cycle) : Prop :=
  sid ∈ session_ids (poll (quser c))
  /\ Forall (fun s => Username s = u -> SessionId s = sid) (poll (quser c)).

Definition misses (u sid : string) (c : Cycle) : Prop :=
  Forall (fun s => Username s ≠ u /\ SessionId s ≠ sid) (poll (quser c)).

#[global] Instance sees_dec u sid c : Decision (sees u sid c).
Proof. unfold sees. apply _. Defined.

#[global] Instance misses_dec u sid c : Decision (misses u sid c).
Proof. unfold misses. apply _. Defined.

(** The cycle reports [s], and every session it reports that is of the
    user of [s] or has the id of [s] is [s]. *)
Definition opens (s : Session) (c : Cycle) : Prop :=
  s ∈ poll (quser c)
  /\ Forall (fun s' => Username s' = Username s \/ SessionId s' = SessionId s ->
                       s' = s) (poll (quser c)).

#[global] Instance opens_dec s c : Decision (opens s c).
Proof. unfold opens. apply _. Defined.

(** The logon time of [r], if it parses, is not after [now]. *)
Definition not_after (now : Datetime.datetime) (r : Row) : bool :=
  match Datetime.strptime (row_logon r) with
  | Some T => T <=? now
  | None => true
  end.

(** In every cycle of the run, the records that the cycle closes out have
    logon times not after the cycle's clock. *)
Fixpoint timely (cycles : list Cycle) (db : DB) : bool :=
  match cycles with
  | [] => true
  | c :: rest =>
      forallb (not_after (clock c))
        (ended (session_ids (poll (quser c))) (ActiveSessions db))
      && match cycle c db with
         | Returned db' => timely rest db'
         | Raised _ => true
         end
  end.

(** ** Concrete runs *)

Module Scenario.

Definition nl : string := String (ascii_of_nat 10) EmptyString.

Definition header : string :=
  " USERNAME              SESSIONNAME        ID  STATE   IDLE TIME  LOGON TIME".

(** The text [quser] prints for the lines given. *)
Definition table (lines : list string) : RunResult :=
  Completed 0 (fold_left (fun out line => out +:+ nl +:+ line) lines header) "".

Definition no_users : RunResult := Completed 1 "" "No users exist for *".

(** [result] from [server], no users on the other servers. *)
Definition only (server : string) (result : RunResult) : string -> RunResult :=
  fun sv => if String.eqb sv server then result else no_users.

Definition both (r1 r2 : RunResult) : string -> RunResult :=
  fun sv => if String.eqb sv "server1" then r1
            else if String.eqb sv "server2" then r2 else no_users.

(** A time of day on 1 January 2025. *)
Definition at_ (H M S : Z) : Datetime.datetime :=
  default 0 (Datetime.make 2025 1 1 H M S 0).

Definition accepting : Engine := fun _ => Done.
Definition refusing : Engine := fun _ => SqliteError.

Definition empty_db : DB := mkDB ∅ [].

Definition alice_line : string :=
  " alice                 rdp-tcp#1           5  Active          .  01.01.2025 09:00".

Definition alice_session : Session :=
  mkSession "alice" "5" "Active" "01.01.2025 09:00".

Definition alice_row : Row := ("5", "alice", "01.01.2025 09:00").

Definition alice_db : DB := mkDB ∅ [alice_row].

(** [server1] reports the session of alice. *)
Definition alice_seen (H M S : Z) : Cycle :=
  mkCycle (only "server1" (table [alice_line])) (at_ H M S) accepting.

(** No server reports a session. *)
Definition nobody (H M S : Z) : Cycle :=
  mkCycle (fun _ => no_users) (at_ H M S) accepting.

(** The request to [server1] times out. *)
Definition server1_down (H M S : Z) : Cycle :=
  mkCycle (only "server1" TimeoutExpired) (at_ H M S) accepting.

(** A server whose [quser] prints the logon time as [1/1/2025 9:00 AM]. *)
Definition alice_line_us : string :=
  " alice                 rdp-tcp#1           5  Active          .  1/1/2025 9:00 AM".

Definition alice_seen_us (H M S : Z) : Cycle :=
  mkCycle (only "server1" (table [alice_line_us])) (at_ H M S) accepting.

(** Two servers report a session with the id 3. *)
Definition alice3_line : string :=
  " alice                 rdp-tcp#0           3  Active          .  01.01.2025 09:00".
Definition bob3_line : string :=
  " bob                   rdp-tcp#0           3  Active          .  01.01.2025 09:30".

Definition alice3 : Session := mkSession "alice" "3" "Active" "01.01.2025 09:00".
Definition bob3 : Session := mkSession "bob" "3" "Active" "01.01.2025 09:30".

Definition same_id (H M S : Z) : Cycle :=
  mkCycle (both (table [alice3_line]) (table [bob3_line])) (at_ H M S) accepting.

(** The session of alice under id 5 is stored; the server now reports a
    session of bob under that id. *)
Definition bob5_line : string :=
  " bob                   rdp-tcp#1           5  Active          .  01.01.2025 09:40".

Definition bob5 : Session := mkSession "bob" "5" "Active" "01.01.2025 09:40".

Definition id_reused (H M S : Z) : Cycle :=
  mkCycle (only "server1" (table [bob5_line])) (at_ H M S) accepting.

End Scenario.

(** ** The database file and [initialize_database] *)

(** [sessions.db] before the tables are known to exist: a table is missing
    or has its rows. *)
Record File := mkFile {
  users_table : option (gmap string Z);
  active_table : option (list Row)
}.

Definition to_file (db : DB) : File :=
  mkFile (Some (Users db)) (Some (ActiveSessions db)).

Definition fresh_file : File := mkFile None None.

(** The two [CREATE TABLE IF NOT EXISTS] statements, with the engine's
    answer to each.  A statement that is executed creates the table empty
    when it is missing and leaves a table that exists alone; it is
    committed at once.  [sqlite3.Error] ends the function (it is logged),
    so a first statement that fails keeps the second from running. *)
Definition initialize_database (a1 a2 : Answer) (f : File) : File :=
  match a1 with
  | SqliteError => f
  | Done =>
      let f1 := mkFile (Some (default ∅ (users_table f))) (active_table f) in
      match a2 with
      | SqliteError => f1
      | Done => mkFile (users_table f1) (Some (default [] (active_table f1)))
      end
  end.

(** How a call on the file ends: the function returns (also after its
    handler has logged [sqlite3.Error]), or [ValueError] leaves it. *)
Inductive FileOutcome :=
| Finished (f : File)
| Failed (f : File).

(** [check_completed_sessions] on the file.  Without [ActiveSessions] the
    [SELECT] raises [sqlite3.OperationalError] (no such table), the handler
    logs it and nothing is written.  Without [Users] every statement of
    [update_user_time] raises it, which that function logs. *)
Definition check_completed_sessions_file (engine : Engine)
    (current_time : Datetime.datetime)
    (active_sessions : list Session) (f : File) : FileOutcome :=
  match active_table f with
  | None => Finished f
  | Some rows =>
      match users_table f with
      | Some users =>
          match check_completed_sessions engine current_time active_sessions
                  (mkDB users rows) with
          | Returned db => Finished (to_file db)
          | Raised db => Failed (to_file db)
          end
      | None =>
          match check_completed_sessions (fun _ => SqliteError) current_time
                  active_sessions (mkDB ∅ rows) with
          | Returned db => Finished (mkFile None (Some (ActiveSessions db)))
          | Raised _ => Failed f
          end
      end
  end.

(** The [while True] loop of [main] on the file. *)
Fixpoint main_loop (cycles : list Cycle) (f : File) : Process * File :=
  match cycles with
  | [] => (Looping, f)
  | c :: rest =>
      match check_completed_sessions_file (engine c) (clock c)
              (poll (quser c)) f with
      | Finished f' => main_loop rest f'
      | Failed f' => (Stopped, f')
      end
  end.

(** [main] from its first line: [initialize_database()], then the loop. *)
Definition run_script (a1 a2 : Answer) (cycles : list Cycle) (f : File)
    : Process * File :=
  main_loop cycles (initialize_database a1 a2 f).

(** ** Words *)


(** A record the script can have written: numeric id, user not ignored. *)
Definition well_formed (r : Row) : Prop :=
  Py.isdigit (row_id r) = true /\ row_user r ≠ "admin".

#[global] Instance well_formed_dec r : Decision (well_formed r).
Proof. unfold well_formed. apply _. Defined.

(** The logon time of [r] does not parse. *)
Definition unparsed (r : Row) : Prop := Datetime.strptime (row_logon r) = None.

#[global] Instance unparsed_dec r : Decision (unparsed r).
Proof. unfold unparsed. apply _. Defined.

(** ** The store's answer in the script's own runs *)

(** [update_user_time] is called from one place, the loop over
    [completed_sessions] (lines 166-167).  An entry of that list comes with
    a [DELETE] (line 160) on the connection of [check_completed_sessions],
    so that connection is in a transaction and holds the write lock of the
    file until its [commit()] (line 185), which comes after the loop.
    SQLite has one writer at a time: the [INSERT OR REPLACE] that
    [update_user_time] sends over its own connection (line 124) waits for
    the busy timeout and raises [sqlite3.OperationalError], database is
    locked.  Every answer to the script's own calls is this one. *)
Definition locked : Engine := fun _ => SqliteError.

(** The cycle as the script runs it: what the servers print and the clock
    are those of [c], the store answers as above. *)
Definition under_lock (c : Cycle) : Cycle :=
  mkCycle (quser c) (clock c) locked.

(** The rows stored under one session id. *)
Definition by_id (sid : string) (rows : list Row) : list Row :=
  filter (fun r => row_id r = sid) rows.

(** * Properties *)

(** ** The primitives on sample inputs *)

Example round_ties_to_even :
  map (fun n => Py.round_div n 2) [1; 3; 5; -1; -3] = [0; 2; 2; 0; -2].
Proof. reflexivity. Qed.

Example strptime_accepts :
  map Datetime.strptime
    ["01.01.2025 09:00"; "1.1.2025 9:0"; " 1.01.2025  09:00"; "29.02.2024 23:59"]
  = [Datetime.make 2025 1 1 9 0 0 0; Datetime.make 2025 1 1 9 0 0 0;
     Datetime.make 2025 1 1 9 0 0 0; Datetime.make 2024 2 29 23 59 0 0].
Proof. vm_compute. reflexivity. Qed.

Example strptime_refuses :
  map Datetime.strptime
    ["9:00 AM"; "1/1/2025 09:00"; "01.01.2025 24:00"; "01.01.2025 09:60";
     "31.02.2025 09:00"; "29.02.2100 23:59"; "01.01.0000 09:00";
     "01.01.2025 09:00 "; "001.01.2025 09:00"]
  = [None; None; None; None; None; None; None; None; None].
Proof. vm_compute. reflexivity. Qed.

Example toordinal_2025 : Datetime.toordinal 2025 1 1 = 739252.
Proof. reflexivity. Qed.

Example split_words :
  Py.split Scenario.alice_line
  = ["alice"; "rdp-tcp#1"; "5"; "Active"; "."; "01.01.2025"; "09:00"].
Proof. vm_compute. reflexivity. Qed.

Example splitlines_sample :
  Py.splitlines ("a" +:+ Scenario.nl +:+ Scenario.nl +:+ "b" +:+ Scenario.nl)
  = ["a"; ""; "b"].
Proof. vm_compute. reflexivity. Qed.

(** A row without session name has the state as its third word and is
    dropped as a system session; so is the [services] row. *)
Example parse_line_samples :
  map parse_line
    [Scenario.alice_line;
     " bob                                       3  Disc         1:05  01.01.2025 09:00";
     " admin                 rdp-tcp#2           7  Active          .  01.01.2025 08:00";
     "                       services            0  Disc"]
  = [Some Scenario.alice_session; None; None; None].
Proof. vm_compute. reflexivity. Qed.

Example poll_two_servers :
  poll (quser (Scenario.same_id 10 0 0)) = [Scenario.alice3; Scenario.bob3].
Proof. vm_compute. reflexivity. Qed.

(** ** Lists *)

Section Filter.
Context {A : Type}.

Lemma filter_ext_elem (P Q : A -> Prop)
    `{!forall x, Decision (P x)} `{!forall x, Decision (Q x)} (l : list A) :
  (forall x, x ∈ l -> (P x <-> Q x)) -> filter P l = filter Q l.
Proof.
  induction l as [|a l IH]; intros Hall; [done|].
  rewrite !filter_cons.
  assert (P a <-> Q a) as Ha by (apply Hall; left).
  rewrite IH by (intros x Hx; apply Hall; by right).
  destruct (decide (P a)), (decide (Q a)); tauto.
Qed.

Lemma filter_all (P : A -> Prop) `{!forall x, Decision (P x)} (l : list A) :
  (forall x, x ∈ l -> P x) -> filter P l = l.
Proof.
  induction l as [|a l IH]; intros Hall; [done|].
  rewrite filter_cons_True by (apply Hall; left).
  f_equal. apply IH. intros x Hx. apply Hall. by right.
Qed.

Lemma filter_none (P : A -> Prop) `{!forall x, Decision (P x)} (l : list A) :
  (forall x, x ∈ l -> ~ P x) -> filter P l = [].
Proof.
  induction l as [|a l IH]; intros Hall; [done|].
  rewrite filter_cons_False by (apply Hall; left).
  apply IH. intros x Hx. apply Hall. by right.
Qed.

Lemma filter_swap (P Q : A -> Prop)
    `{!forall x, Decision (P x)} `{!forall x, Decision (Q x)} (l : list A) :
  filter P (filter Q l) = filter Q (filter P l).
Proof.
  rewrite !list_filter_filter. apply list_filter_iff. tauto.
Qed.
End Filter.

(** ** The loops of [check_completed_sessions] *)

Section Closeout.
Variable ids : gset string.
Variable now : Datetime.datetime.

Lemma ended_cons_in r rows :
  row_id r ∈ ids -> ended ids (r :: rows) = ended ids rows.
Proof. intros H. unfold ended. rewrite filter_cons_False; [done|tauto]. Qed.

Lemma ended_cons_out r rows :
  row_id r ∉ ids -> ended ids (r :: rows) = r :: ended ids rows.
Proof. intros H. unfold ended. by rewrite filter_cons_True. Qed.

(** When the loop ends normally, [completed_sessions] has one entry for
    each row whose id is not in the snapshot, in order, and exactly the
    rows with those ids are deleted. *)
Lemma closeout_Some rows : forall acc tbl cs tbl',
  closeout ids now rows acc tbl = Some (cs, tbl') ->
  cs = (acc ++ (charge now <$> ended ids rows))%list
  /\ tbl' = filter (fun r => row_id r ∉ row_id <$> ended ids rows) tbl.
Proof.
  induction rows as [|[[sid u] L] rest IH]; intros acc tbl cs tbl' H; simpl in H.
  - injection H as <- <-. split; [by rewrite app_nil_r|].
    symmetry. apply filter_all. intros x _. apply not_elem_of_nil.
  - case_bool_decide as Hin.
    + rewrite ended_cons_in by done. by apply IH.
    + destruct (Datetime.strptime L) as [t|] eqn:Ht; [|done].
      apply IH in H as [-> ->].
      rewrite ended_cons_out by done. split.
      * rewrite <- app_assoc. simpl. unfold charge at 2, duration.
        simpl. by rewrite Ht.
      * unfold delete_session. rewrite list_filter_filter.
        apply list_filter_iff. intros r. rewrite fmap_cons, not_elem_of_cons.
        simpl. tauto.
Qed.

(** The loop raises exactly when a row it closes out has a logon time
    that [strptime] refuses. *)
Lemma closeout_None rows : forall acc tbl,
  closeout ids now rows acc tbl = None <->
  exists r, r ∈ ended ids rows /\ Datetime.strptime (row_logon r) = None.
Proof.
  induction rows as [|[[sid u] L] rest IH]; intros acc tbl; simpl.
  - split; [done|]. intros (r & Hr & _). by apply elem_of_nil in Hr.
  - case_bool_decide as Hin.
    + rewrite ended_cons_in by done. apply IH.
    + rewrite ended_cons_out by done.
      destruct (Datetime.strptime L) as [t|] eqn:Ht.
      * rewrite IH. split.
        -- intros (r & Hr & Hn). exists r. split; [by right|done].
        -- intros (r & Hr & Hn). apply elem_of_cons in Hr as [->|Hr].
           ++ simpl in Hn. congruence.
           ++ by exists r.
      * split; [|done]. intros _. exists (sid, u, L). split; [left|done].
Qed.

Lemma kept_rows rows :
  filter (fun r => row_id r ∉ row_id <$> ended ids rows) rows = kept ids rows.
Proof.
  apply filter_ext_elem. intros r Hr. split.
  - intros Hn. destruct (decide (row_id r ∈ ids)) as [|Hout]; [done|].
    exfalso. apply Hn. apply list_elem_of_fmap_2.
    by apply list_elem_of_filter.
  - intros Hin Hd. apply list_elem_of_fmap in Hd as (r' & Heq & Hr').
    apply list_elem_of_filter in Hr' as [Hout _]. apply Hout. by rewrite <- Heq.
Qed.
End Closeout.

(** A call that returns has made the calls of [update_user_time] for the
    rows not in the snapshot and stores the kept rows and the new ones. *)
Lemma check_completed_sessions_Returned e now snap db db' :
  check_completed_sessions e now snap db = Returned db' ->
  Users db' = update_all e 0 (charge now <$> ended (session_ids snap) (ActiveSessions db))
                (Users db)
  /\ ActiveSessions db' = add_new snap (kept (session_ids snap) (ActiveSessions db)).
Proof.
  unfold check_completed_sessions. intros H.
  destruct (closeout _ _ _ _ _) as [[cs tbl]|] eqn:Hc; [|done].
  injection H as <-. apply closeout_Some in Hc as [-> ->]. simpl.
  by rewrite kept_rows.
Qed.

(** A call that raises leaves the store as it was. *)
Lemma check_completed_sessions_Raised e now snap db db' :
  check_completed_sessions e now snap db = Raised db' ->
  db' = db /\ exists r, r ∈ ended (session_ids snap) (ActiveSessions db)
                        /\ Datetime.strptime (row_logon r) = None.
Proof.
  unfold check_completed_sessions. intros H.
  destruct (closeout _ _ _ _ _) as [[cs tbl]|] eqn:Hc; [done|].
  injection H as <-. split; [done|]. by apply closeout_None in Hc.
Qed.

Lemma check_completed_sessions_no_ended e now snap db :
  ended (session_ids snap) (ActiveSessions db) = [] ->
  check_completed_sessions e now snap db
  = Returned (mkDB (Users db) (add_new snap (ActiveSessions db))).
Proof.
  intros He.
  destruct (check_completed_sessions e now snap db) as [db'|db'] eqn:H.
  - apply check_completed_sessions_Returned in H as [Hu Ha].
    rewrite He in Hu. simpl in Hu. destruct db' as [us rows]. simpl in *.
    assert (kept (session_ids snap) (ActiveSessions db) = ActiveSessions db) as Hk.
    { apply filter_all. intros r Hr.
      destruct (decide (row_id r ∈ session_ids snap)) as [|Hn]; [done|].
      exfalso. eapply filter_nil_not_elem_of; [exact He| |exact Hr]. done. }
    rewrite Hk in Ha. by subst.
  - apply check_completed_sessions_Raised in H as [_ (r & Hr & _)].
    rewrite He in Hr. by apply elem_of_nil in Hr.
Qed.

(** ** [update_user_time] and its loop *)

Lemma update_user_time_other a username d (users : gmap string Z) u :
  u ≠ username -> update_user_time a username d users !! u = users !! u.
Proof.
  intros Hne. unfold update_user_time.
  case_bool_decide; [done|]. destruct a; [|done]. by rewrite lookup_insert_ne.
Qed.

Lemma update_user_time_admin a username d (users : gmap string Z) :
  update_user_time a username d users !! "admin" = users !! "admin".
Proof.
  unfold update_user_time. case_bool_decide as Hadm; [done|].
  destruct a; [|done]. by rewrite lookup_insert_ne.
Qed.

Lemma update_user_time_Done username d (users : gmap string Z) :
  username ≠ "admin" ->
  update_user_time Done username d users !! username
  = Some (default 0 (users !! username) + d).
Proof.
  intros Hne. unfold update_user_time.
  rewrite bool_decide_eq_false_2 by done. by rewrite lookup_insert_eq.
Qed.

(** Whatever the engine answers, a call changes at most the row of its
    user, and by no less than [d] below. *)
Lemma update_user_time_lookup a username d (users : gmap string Z) u :
  update_user_time a username d users !! u = users !! u
  \/ (u = username
      /\ update_user_time a username d users !! u
         = Some (default 0 (users !! u) + d)).
Proof.
  unfold update_user_time. case_bool_decide; [by left|].
  destruct a; [|by left].
  destruct (decide (u = username)) as [->|Hne].
  - right. by rewrite lookup_insert_eq.
  - left. by rewrite lookup_insert_ne.
Qed.

Section UpdateAll.
Variable e : Engine.

Lemma update_all_admin cs : forall i (users : gmap string Z),
  update_all e i cs users !! "admin" = users !! "admin".
Proof.
  induction cs as [|[username d] cs IH]; intros i users; simpl; [done|].
  rewrite IH. apply update_user_time_admin.
Qed.

Lemma update_all_untouched u cs : forall i (users : gmap string Z),
  (forall p, p ∈ cs -> p.1 ≠ u) ->
  update_all e i cs users !! u = users !! u.
Proof.
  induction cs as [|[username d] cs IH]; intros i users H; simpl; [done|].
  rewrite IH by (intros p Hp; apply H; by right).
  apply update_user_time_other. intros ->. by apply (H (username, d)); [left|].
Qed.

Lemma update_all_total u cs : forall i (users : gmap string Z),
  accepts e -> u ≠ "admin" ->
  default 0 (update_all e i cs users !! u)
  = default 0 (users !! u) + charged u cs.
Proof.
  induction cs as [|[username d] cs IH]; intros i users He Hu; simpl; [lia|].
  rewrite IH by done. rewrite (He i).
  case_bool_decide as Heq.
  - subst username. rewrite update_user_time_Done by done. simpl. lia.
  - rewrite update_user_time_other by congruence. lia.
Qed.

Lemma update_all_mono cs : forall i (users : gmap string Z) u v,
  (forall p, p ∈ cs -> 0 <= p.2) ->
  users !! u = Some v ->
  exists v', update_all e i cs users !! u = Some v' /\ v <= v'.
Proof.
  induction cs as [|[username d] cs IH]; intros i users u v H Hv; simpl.
  - exists v. split; [done|lia].
  - assert (0 <= d) as Hd by (apply (H (username, d)); left).
    destruct (update_user_time_lookup (e i) username d users u) as [Heq|[_ Heq]].
    + apply IH; [|by rewrite Heq]. intros p Hp. apply H. by right.
    + rewrite Hv in Heq. simpl in Heq.
      destruct (IH (S i) (update_user_time (e i) username d users) u (v + d))
        as (v' & Hv' & Hle); [|done|].
      * intros p Hp. apply H. by right.
      * exists v'. split; [done|lia].
Qed.

Lemma update_all_nonneg cs : forall i (users : gmap string Z),
  (forall p, p ∈ cs -> 0 <= p.2) ->
  (forall u v, users !! u = Some v -> 0 <= v) ->
  forall u v, update_all e i cs users !! u = Some v -> 0 <= v.
Proof.
  induction cs as [|[username d] cs IH]; intros i users H Hpos u v; simpl.
  - apply Hpos.
  - assert (0 <= d) as Hd by (apply (H (username, d)); left).
    apply IH; [intros p Hp; apply H; by right|].
    intros u' v' Hv'.
    destruct (update_user_time_lookup (e i) username d users u') as [Heq|[_ Heq]];
      rewrite Heq in Hv'.
    + by eapply Hpos.
    + injection Hv' as <-.
      destruct (users !! u') as [w|] eqn:Hw; simpl; [|lia].
      apply Hpos in Hw. lia.
Qed.
End UpdateAll.

Lemma charged_app u (l1 l2 : list (string * Z)) :
  charged u (l1 ++ l2) = charged u l1 + charged u l2.
Proof.
  induction l1 as [|[username d] l1 IH]; simpl; [done|]. rewrite IH. lia.
Qed.

Lemma charged_none u (l : list (string * Z)) :
  (forall p, p ∈ l -> p.1 ≠ u) -> charged u l = 0.
Proof.
  induction l as [|[username d] l IH]; intros H; simpl; [done|].
  rewrite IH by (intros p Hp; apply H; by right).
  rewrite bool_decide_eq_false_2; [done|]. apply (H (username, d)). left.
Qed.

(** ** The loop that adds the new sessions *)

Lemma session_exists_true sid tbl :
  session_exists sid tbl = true <-> sid ∈ row_id <$> tbl.
Proof. unfold session_exists. apply bool_decide_eq_true. Qed.

Lemma session_exists_false sid tbl :
  session_exists sid tbl = false <-> sid ∉ row_id <$> tbl.
Proof. unfold session_exists. apply bool_decide_eq_false. Qed.

Lemma add_new_snap_app l1 l2 : forall tbl,
  add_new (l1 ++ l2) tbl = add_new l2 (add_new l1 tbl).
Proof.
  induction l1 as [|s l1 IH]; intros tbl; simpl; [done|].
  destruct (session_exists _ _); apply IH.
Qed.

Lemma add_new_mono snap : forall tbl r, r ∈ tbl -> r ∈ add_new snap tbl.
Proof.
  induction snap as [|s snap IH]; intros tbl r Hr; simpl; [done|].
  destruct (session_exists _ _); apply IH; [done|].
  apply elem_of_app. by left.
Qed.

(** A row of the table after the loop was there before it or is the row of
    a session of the snapshot. *)
Lemma add_new_elem snap : forall tbl r,
  r ∈ add_new snap tbl -> r ∈ tbl \/ exists s, s ∈ snap /\ r = row_of s.
Proof.
  induction snap as [|s snap IH]; intros tbl r Hr; simpl in Hr; [by left|].
  destruct (session_exists _ _).
  - apply IH in Hr as [?|(s' & ? & ?)]; [by left|].
    right. exists s'. split; [by right|done].
  - apply IH in Hr as [Hr|(s' & ? & ?)].
    + apply elem_of_app in Hr as [?|Hr]; [by left|].
      apply list_elem_of_singleton in Hr. right. exists s. split; [left|done].
    + right. exists s'. split; [by right|done].
Qed.

(** After the loop every session of the snapshot has a row under its id. *)
Lemma add_new_ids snap : forall tbl s,
  s ∈ snap -> SessionId s ∈ row_id <$> add_new snap tbl.
Proof.
  induction snap as [|s0 snap IH]; intros tbl s Hs; [by apply elem_of_nil in Hs|].
  simpl. apply elem_of_cons in Hs as [->|Hs].
  - destruct (session_exists _ _) eqn:Hex.
    + apply session_exists_true in Hex.
      apply list_elem_of_fmap in Hex as (r & Hid & Hr).
      apply list_elem_of_fmap. exists r. split; [done|]. by apply add_new_mono.
    + apply list_elem_of_fmap. exists (row_of s0). split; [done|].
      apply add_new_mono. apply elem_of_app. right. left.
  - destruct (session_exists _ _); by apply IH.
Qed.

(** The loop adds nothing when every id of the snapshot is stored. *)
Lemma add_new_fixed snap tbl :
  (forall s, s ∈ snap -> SessionId s ∈ row_id <$> tbl) -> add_new snap tbl = tbl.
Proof.
  induction snap as [|s snap IH]; intros H; simpl; [done|].
  assert (session_exists (SessionId s) tbl = true) as ->.
  { apply session_exists_true. apply H. left. }
  apply IH. intros s' Hs'. apply H. by right.
Qed.

Section Records.
Variables u sid : string.

Lemma records_elem r rows :
  r ∈ rows -> tracked u sid r -> r ∈ records u sid rows.
Proof. intros. by apply list_elem_of_filter. Qed.

Lemma records_id_stored rows r :
  records u sid rows = [r] -> row_id r = sid -> sid ∈ row_id <$> rows.
Proof.
  intros Hrec Hid. apply list_elem_of_fmap. exists r. split; [done|].
  assert (r ∈ records u sid rows) as Hr by (rewrite Hrec; left).
  by apply list_elem_of_filter in Hr as [_ ?].
Qed.

Lemma records_nil_id rows : records u sid rows = [] -> sid ∉ row_id <$> rows.
Proof.
  intros Hrec Hin. apply list_elem_of_fmap in Hin as (r & Hid & Hr).
  eapply filter_nil_not_elem_of; [exact Hrec| |exact Hr]. by right.
Qed.

(** No session of the snapshot is of [u] or has the id [sid]. *)
Lemma add_new_records_none snap : forall tbl,
  (forall s, s ∈ snap -> Username s ≠ u /\ SessionId s ≠ sid) ->
  records u sid (add_new snap tbl) = records u sid tbl.
Proof.
  induction snap as [|s snap IH]; intros tbl H; simpl; [done|].
  assert (forall s', s' ∈ snap -> Username s' ≠ u /\ SessionId s' ≠ sid) as H'
    by (intros s' Hs'; apply H; by right).
  destruct (session_exists _ _); [by apply IH|].
  rewrite IH by done. unfold records. rewrite filter_app.
  rewrite filter_cons_False, filter_nil, app_nil_r; [done|].
  destruct (H s) as [? ?]; [left|]. unfold tracked. simpl. tauto.
Qed.

(** The id [sid] is stored, and the sessions of [u] in the snapshot all
    carry it: the loop adds no row of [u] and none under [sid]. *)
Lemma add_new_records_keep snap : forall tbl,
  sid ∈ row_id <$> tbl ->
  (forall s, s ∈ snap -> Username s = u -> SessionId s = sid) ->
  records u sid (add_new snap tbl) = records u sid tbl.
Proof.
  induction snap as [|s snap IH]; intros tbl Hsid H; simpl; [done|].
  assert (forall s', s' ∈ snap -> Username s' = u -> SessionId s' = sid) as H'
    by (intros s' Hs'; apply H; by right).
  destruct (session_exists _ _) eqn:Hex; [by apply IH|].
  apply session_exists_false in Hex.
  rewrite IH; [|rewrite fmap_app; apply elem_of_app; by left|done].
  unfold records. rewrite filter_app.
  rewrite filter_cons_False, filter_nil, app_nil_r; [done|].
  unfold tracked. simpl. intros [Hu|Hid].
  - apply Hex. rewrite (H s) by (done || left). done.
  - apply Hex. change (SessionId s = sid) in Hid. by rewrite Hid.
Qed.

(** The first session of the snapshot that is of [u] or has the id [sid]
    is [s], of [u] and with that id, and the later sessions of [u] carry
    the same id: the loop adds the row of [s] and no other of them. *)
Lemma add_new_records_open l1 s l2 tbl :
  records u sid tbl = [] ->
  Username s = u -> SessionId s = sid ->
  (forall s', s' ∈ l1 -> Username s' ≠ u /\ SessionId s' ≠ sid) ->
  (forall s', s' ∈ l2 -> Username s' = u -> SessionId s' = sid) ->
  records u sid (add_new (l1 ++ s :: l2) tbl) = [row_of s].
Proof.
  intros Hnil Hu Hid H1 H2.
  rewrite add_new_snap_app. simpl.
  assert (records u sid (add_new l1 tbl) = []) as Hnil1
    by (by rewrite add_new_records_none).
  assert (session_exists (SessionId s) (add_new l1 tbl) = false) as ->.
  { apply session_exists_false. rewrite Hid. by apply records_nil_id. }
  rewrite add_new_records_keep; [| |done].
  - unfold records in *. rewrite filter_app, Hnil1. simpl.
    rewrite filter_cons_True, filter_nil; [done|]. by left.
  - rewrite fmap_app. apply elem_of_app. right.
    apply list_elem_of_fmap. exists (row_of s). split; [by rewrite <- Hid|left].
Qed.

(** What the closing loop leaves of the records. *)
Lemma records_kept ids rows :
  records u sid (kept ids rows) = kept ids (records u sid rows).
Proof. apply filter_swap. Qed.

(** The minutes owed to [u] come from the records of [u]. *)
Lemma owed_records now ids rows :
  owed now ids u rows = owed now ids u (records u sid rows).
Proof.
  unfold owed, ended, records.
  induction rows as [|r rows IH]; [done|].
  rewrite (filter_cons (tracked u sid)).
  destruct (decide (tracked u sid r)) as [Ht|Ht].
  - rewrite !(filter_cons (fun r => row_id r ∉ ids)).
    destruct (decide (row_id r ∉ ids)); [|done].
    rewrite !fmap_cons. simpl. by rewrite IH.
  - rewrite filter_cons. destruct (decide (row_id r ∉ ids)); [|done].
    rewrite fmap_cons. simpl. rewrite IH.
    rewrite bool_decide_eq_false_2; [done|]. unfold tracked in Ht. tauto.
Qed.
End Records.

(** ** One call, seen from one user and one session id *)

Lemma elem_of_session_ids sid snap :
  sid ∈ session_ids snap <-> exists s, s ∈ snap /\ SessionId s = sid.
Proof.
  unfold session_ids. rewrite elem_of_list_to_set, list_elem_of_fmap.
  split; intros (s & ? & ?); exists s; by split.
Qed.

Lemma not_elem_of_session_ids sid snap :
  (forall s, s ∈ snap -> SessionId s ≠ sid) -> sid ∉ session_ids snap.
Proof.
  intros H Hin. apply elem_of_session_ids in Hin as (s & Hs & Hid).
  by apply (H s).
Qed.

(** With an engine that accepts every write, a call that returns adds to
    the total of each user the minutes it owes that user. *)
Lemma check_completed_sessions_total e now snap db db' u :
  check_completed_sessions e now snap db = Returned db' ->
  accepts e -> u ≠ "admin" ->
  total db' u = total db u + owed now (session_ids snap) u (ActiveSessions db).
Proof.
  intros H He Hu. apply check_completed_sessions_Returned in H as [HU _].
  unfold total. rewrite HU. by apply update_all_total.
Qed.

(** Whatever the engine answers, a call that closes no row of [u] leaves
    the row of [u] in [Users] as it is. *)
Lemma check_completed_sessions_untouched e now snap db db' u :
  check_completed_sessions e now snap db = Returned db' ->
  (forall r, r ∈ ended (session_ids snap) (ActiveSessions db) -> row_user r ≠ u) ->
  Users db' !! u = Users db !! u.
Proof.
  intros H Hn. apply check_completed_sessions_Returned in H as [HU _].
  rewrite HU. apply update_all_untouched.
  intros p Hp. apply list_elem_of_fmap in Hp as (r & -> & Hr). by apply Hn.
Qed.

Section Tracking.
Variables (e : Engine) (now : Datetime.datetime).
Variables (snap : list Session) (db db' : DB).
Variables u sid : string.
Hypothesis Hret : check_completed_sessions e now snap db = Returned db'.

(** The session stays in the snapshot: its record stays as stored and
    nothing is charged to the user. *)
Lemma tracked_keep r :
  records u sid (ActiveSessions db) = [r] -> row_id r = sid ->
  sid ∈ session_ids snap ->
  (forall s, s ∈ snap -> Username s = u -> SessionId s = sid) ->
  records u sid (ActiveSessions db') = [r] /\ Users db' !! u = Users db !! u.
Proof.
  intros Hrec Hid Hin Hsnap.
  assert (records u sid (kept (session_ids snap) (ActiveSessions db)) = [r]) as Hk.
  { rewrite records_kept, Hrec. unfold kept.
    rewrite filter_cons_True, filter_nil; [done|]. by rewrite Hid. }
  split.
  - apply check_completed_sessions_Returned in Hret as [_ ->].
    rewrite add_new_records_keep; [done| |done].
    by eapply records_id_stored.
  - apply (check_completed_sessions_untouched _ _ _ _ _ _ Hret).
    intros r' Hr' Hu. apply list_elem_of_filter in Hr' as [Hout Hr'].
    assert (r' ∈ records u sid (ActiveSessions db)) as Hin'
      by (apply records_elem; [done|by left]).
    rewrite Hrec in Hin'. apply list_elem_of_singleton in Hin' as ->.
    apply Hout. by rewrite Hid.
Qed.

(** Neither the user nor the id is stored or in the snapshot. *)
Lemma tracked_idle :
  records u sid (ActiveSessions db) = [] ->
  (forall s, s ∈ snap -> Username s ≠ u /\ SessionId s ≠ sid) ->
  records u sid (ActiveSessions db') = [] /\ Users db' !! u = Users db !! u.
Proof.
  intros Hrec Hsnap. split.
  - apply check_completed_sessions_Returned in Hret as [_ ->].
    rewrite add_new_records_none by done.
    rewrite records_kept, Hrec. done.
  - apply (check_completed_sessions_untouched _ _ _ _ _ _ Hret).
    intros r' Hr' Hu. apply list_elem_of_filter in Hr' as [_ Hr'].
    eapply filter_nil_not_elem_of; [exact Hrec| |exact Hr']. by left.
Qed.

(** The session is seen for the first time. *)
Lemma tracked_open l1 s l2 :
  records u sid (ActiveSessions db) = [] ->
  snap = (l1 ++ s :: l2)%list ->
  Username s = u -> SessionId s = sid ->
  (forall s', s' ∈ l1 -> Username s' ≠ u /\ SessionId s' ≠ sid) ->
  (forall s', s' ∈ l2 -> Username s' = u -> SessionId s' = sid) ->
  records u sid (ActiveSessions db') = [row_of s] /\ Users db' !! u = Users db !! u.
Proof.
  intros Hrec Hsnap Hu Hid H1 H2. split.
  - apply check_completed_sessions_Returned in Hret as [_ ->].
    assert (records u sid (kept (session_ids snap) (ActiveSessions db)) = [])
      as Hk by (by rewrite records_kept, Hrec).
    revert Hk. generalize (kept (session_ids snap) (ActiveSessions db)).
    intros tbl Hk. rewrite Hsnap. by apply add_new_records_open.
  - apply (check_completed_sessions_untouched _ _ _ _ _ _ Hret).
    intros r' Hr' Hu'. apply list_elem_of_filter in Hr' as [_ Hr'].
    eapply filter_nil_not_elem_of; [exact Hrec| |exact Hr']. by left.
Qed.

(** The session has left the snapshot: its record is deleted and the
    minutes since its stored logon time go to its stored user. *)
Lemma tracked_close L T :
  records u sid (ActiveSessions db) = [(sid, u, L)] ->
  Datetime.strptime L = Some T ->
  (forall s, s ∈ snap -> Username s ≠ u /\ SessionId s ≠ sid) ->
  accepts e -> u ≠ "admin" ->
  records u sid (ActiveSessions db') = []
  /\ total db' u = total db u + Datetime.minutes_between now T.
Proof.
  intros Hrec HT Hsnap He Hu.
  assert (sid ∉ session_ids snap) as Hout
    by (apply not_elem_of_session_ids; intros s Hs; by apply Hsnap).
  split.
  - apply check_completed_sessions_Returned in Hret as [_ ->].
    rewrite add_new_records_none by done.
    rewrite records_kept, Hrec. unfold kept.
    by rewrite filter_cons_False, filter_nil.
  - rewrite (check_completed_sessions_total _ _ _ _ _ _ Hret He Hu).
    rewrite (owed_records u sid), Hrec. unfold owed.
    rewrite ended_cons_out by done. unfold ended. rewrite filter_nil.
    simpl. unfold duration. simpl. rewrite HT.
    rewrite bool_decide_eq_true_2 by done. lia.
Qed.
End Tracking.

(** ** [get_active_sessions] and the snapshot *)

Lemma parse_line_not_admin line s :
  parse_line line = Some s -> Username s ≠ "admin".
Proof.
  unfold parse_line. destruct (5 <=? _)%nat; [|done].
  destruct (negb _); [done|]. case_bool_decide as Hadm; [done|].
  by intros [= <-].
Qed.

Lemma parse_lines_not_admin lines s :
  s ∈ parse_lines lines -> Username s ≠ "admin".
Proof.
  induction lines as [|line lines IH]; simpl; [by intros ?%elem_of_nil|].
  destruct (parse_line line) as [s0|] eqn:Hl; [|done].
  intros [->|?]%elem_of_cons; [|by apply IH]. by eapply parse_line_not_admin.
Qed.

Lemma get_active_sessions_not_admin result s :
  s ∈ get_active_sessions result -> Username s ≠ "admin".
Proof.
  destruct result as [rc out err| |]; simpl; try by intros ?%elem_of_nil.
  destruct (negb _); [by intros ?%elem_of_nil|].
  destruct (Py.contains _ _); [by intros ?%elem_of_nil|].
  apply parse_lines_not_admin.
Qed.

Lemma get_active_sessions_failed result :
  fetch_failed result = true -> get_active_sessions result = [].
Proof.
  destruct result as [rc out err| |]; simpl; [|done|done]. by intros ->.
Qed.

Lemma poll_not_admin q s : s ∈ poll q -> Username s ≠ "admin".
Proof.
  unfold poll. rewrite list_elem_of_In, in_flat_map.
  intros (server & _ & Hs). apply list_elem_of_In in Hs.
  by eapply get_active_sessions_not_admin.
Qed.

(** ** The loop of [main] *)

Lemma main_cons_Looping c rest db db' :
  main (c :: rest) db = (Looping, db') ->
  exists db1, cycle c db = Returned db1 /\ main rest db1 = (Looping, db').
Proof.
  simpl. destruct (cycle c db) as [db1|db1]; [|done]. intros H. by exists db1.
Qed.

Lemma main_app_Looping l1 : forall l2 db db',
  main (l1 ++ l2) db = (Looping, db') ->
  exists db1, main l1 db = (Looping, db1) /\ main l2 db1 = (Looping, db').
Proof.
  induction l1 as [|c l1 IH]; intros l2 db db' H; simpl in *.
  - by exists db.
  - destruct (cycle c db) as [db1|db1]; [|done]. by apply IH.
Qed.

Section Runs.
Variables u sid : string.

Lemma main_keep obs : forall db db' r,
  Forall (sees u sid) obs ->
  records u sid (ActiveSessions db) = [r] -> row_id r = sid ->
  main obs db = (Looping, db') ->
  records u sid (ActiveSessions db') = [r] /\ Users db' !! u = Users db !! u.
Proof.
  induction obs as [|c obs IH]; intros db db' r Hobs Hrec Hid Hmain.
  - simpl in Hmain. by injection Hmain as <-.
  - apply main_cons_Looping in Hmain as (db1 & Hc & Hmain).
    apply Forall_cons in Hobs as [[Hin Hall] Hobs].
    destruct (tracked_keep _ _ _ _ _ u sid Hc r Hrec Hid Hin) as [Hrec1 HU1].
    { intros s Hs. by apply (proj1 (Forall_forall _ _) Hall). }
    destruct (IH db1 db' r Hobs Hrec1 Hid Hmain) as [Hrec' HU'].
    split; [done|]. by rewrite HU', HU1.
Qed.

Lemma main_idle later : forall db db',
  Forall (misses u sid) later ->
  records u sid (ActiveSessions db) = [] ->
  main later db = (Looping, db') ->
  records u sid (ActiveSessions db') = [] /\ Users db' !! u = Users db !! u.
Proof.
  induction later as [|c later IH]; intros db db' Hl Hrec Hmain.
  - simpl in Hmain. by injection Hmain as <-.
  - apply main_cons_Looping in Hmain as (db1 & Hc & Hmain).
    apply Forall_cons in Hl as [Hmiss Hl].
    destruct (tracked_idle _ _ _ _ _ u sid Hc Hrec) as [Hrec1 HU1].
    { intros s Hs. by apply (proj1 (Forall_forall _ _) Hmiss). }
    destruct (IH db1 db' Hl Hrec1 Hmain) as [Hrec' HU'].
    split; [done|]. by rewrite HU', HU1.
Qed.
End Runs.

(** ** Absence from the snapshot *)

(** Every row of the table after a call has its id in the snapshot or was
    kept from before. *)
Lemma rows_after_call e now snap db db' r :
  check_completed_sessions e now snap db = Returned db' ->
  r ∈ ActiveSessions db' ->
  row_id r ∈ session_ids snap
  /\ (r ∈ ActiveSessions db \/ exists s, s ∈ snap /\ r = row_of s).
Proof.
  intros H Hr. apply check_completed_sessions_Returned in H as [_ Hrows].
  rewrite Hrows in Hr. apply add_new_elem in Hr as [Hr|(s & Hs & ->)].
  - apply list_elem_of_filter in Hr as [? ?]. split; [done|by left].
  - split; [|right; by exists s]. apply elem_of_session_ids. by exists s.
Qed.

(** C1, the run that refutes it: the record of alice comes from [server1];
    in the next cycle the request to [server1] times out, and that cycle
    deletes the record and adds 47 minutes to the total of alice. *)
Lemma failed_fetch_record_closed_out :
  poll (quser (Scenario.alice_seen 9 10 0)) = [Scenario.alice_session]
  /\ cycle (Scenario.alice_seen 9 10 0) Scenario.empty_db = Returned Scenario.alice_db
  /\ fetch_failed (quser (Scenario.server1_down 9 47 0) "server1") = true
  /\ cycle (Scenario.server1_down 9 47 0) Scenario.alice_db
     = Returned (mkDB {["alice" := 47]} []).
Proof. repeat split; vm_compute; reflexivity. Qed.

(** C1 (amended).  A fetch that fails (timeout, exit code other than 0,
    exception) gives the empty list of sessions.  A cycle that returns
    deletes every stored record whose id is not in the merged snapshot,
    whichever server it came from, keeps every record whose id is in it,
    and, when the store accepts the writes, adds to each user the
    durations of the records of that user it deleted. *)
Theorem absent_records_closed_out c db db' :
  cycle c db = Returned db' ->
  (forall server, fetch_failed (quser c server) = true ->
     get_active_sessions (quser c server) = [])
  /\ (forall r, r ∈ ActiveSessions db ->
        row_id r ∉ session_ids (poll (quser c)) ->
        row_id r ∉ row_id <$> ActiveSessions db')
  /\ (forall r, r ∈ ActiveSessions db ->
        row_id r ∈ session_ids (poll (quser c)) -> r ∈ ActiveSessions db')
  /\ (accepts (engine c) -> forall u, u ≠ "admin" ->
        total db' u
        = total db u
          + owed (clock c) (session_ids (poll (quser c))) u (ActiveSessions db)).
Proof.
  intros H. unfold cycle in H. repeat split.
  - intros server. apply get_active_sessions_failed.
  - intros r Hr Hout Hin. apply list_elem_of_fmap in Hin as (r' & Hid & Hr').
    destruct (rows_after_call _ _ _ _ _ _ H Hr') as [Hin' _].
    apply Hout. by rewrite Hid.
  - intros r Hr Hin. apply check_completed_sessions_Returned in H as [_ ->].
    apply add_new_mono. by apply list_elem_of_filter.
  - intros He u Hu.
    by apply (check_completed_sessions_total _ _ _ _ _ _ H).
Qed.

Lemma absent_records_closed_out_witness :
  cycle (Scenario.server1_down 9 47 0) Scenario.alice_db
  = Returned (mkDB {["alice" := 47]} [])
  /\ get_active_sessions (quser (Scenario.server1_down 9 47 0) "server1") = []
  /\ total (mkDB {["alice" := 47]} []) "alice"
     = total Scenario.alice_db "alice"
       + owed (Scenario.at_ 9 47 0)
           (session_ids (poll (quser (Scenario.server1_down 9 47 0)))) "alice"
           [Scenario.alice_row].
Proof.
  assert (cycle (Scenario.server1_down 9 47 0) Scenario.alice_db
          = Returned (mkDB {["alice" := 47]} [])) as H
    by (vm_compute; reflexivity).
  destruct (absent_records_closed_out _ _ _ H) as (Hfail & _ & _ & Htot).
  split; [exact H|]. split.
  - apply Hfail. reflexivity.
  - apply Htot; [intros i; reflexivity|discriminate].
Defined.

(** ** Idempotence *)

(** C6.  Running [check_completed_sessions] a second time on the snapshot
    of the first run, whatever the clock and the engine of either run,
    ends as the first run ended and leaves the store the first run left:
    no row of [ActiveSessions] or [Users] is added, removed or changed. *)
Theorem reconcile_same_snapshot_twice e1 e2 now1 now2 snap db :
  check_completed_sessions e2 now2 snap
    (store (check_completed_sessions e1 now1 snap db))
  = check_completed_sessions e1 now1 snap db
  /\ store (check_completed_sessions e2 now2 snap
              (store (check_completed_sessions e1 now1 snap db)))
     = store (check_completed_sessions e1 now1 snap db).
Proof.
  assert (check_completed_sessions e2 now2 snap
            (store (check_completed_sessions e1 now1 snap db))
          = check_completed_sessions e1 now1 snap db) as Heq;
    [|split; [exact Heq|by rewrite Heq]].
  destruct (check_completed_sessions e1 now1 snap db) as [db1|db1] eqn:H1; simpl.
  - assert (ended (session_ids snap) (ActiveSessions db1) = []) as Hnone.
    { apply filter_none. intros r Hr Hout.
      by destruct (rows_after_call _ _ _ _ _ _ H1 Hr) as [? _]. }
    rewrite check_completed_sessions_no_ended by done.
    rewrite add_new_fixed; [by destruct db1|].
    intros s Hs. apply check_completed_sessions_Returned in H1 as [_ ->].
    by apply add_new_ids.
  - apply check_completed_sessions_Raised in H1 as [-> Hbad].
    unfold check_completed_sessions.
    destruct (closeout_None (session_ids snap) now2 (ActiveSessions db)
                [] (ActiveSessions db)) as [_ Hc].
    by rewrite (Hc Hbad).
Qed.

(** ** The ignored user *)

Lemma cycle_admin c db :
  (forall r, r ∈ ActiveSessions (store (cycle c db)) ->
     row_user r = "admin" -> r ∈ ActiveSessions db)
  /\ Users (store (cycle c db)) !! "admin" = Users db !! "admin".
Proof.
  destruct (cycle c db) as [db'|db'] eqn:H; unfold cycle in H; simpl.
  - split.
    + intros r Hr Hadm.
      destruct (rows_after_call _ _ _ _ _ _ H Hr) as [_ [?|(s & Hs & ->)]]; [done|].
      by apply poll_not_admin in Hs.
    + apply check_completed_sessions_Returned in H as [-> _].
      apply update_all_admin.
  - by apply check_completed_sessions_Raised in H as [-> _].
Qed.

(** C8.  The ignore set of the script is the one user "admin".  Over any
    sequence of cycles, whatever the servers report and the engine
    answers, every record of admin in [ActiveSessions] at the end was
    there at the start (none is inserted), and the row of admin in
    [Users] is at the end what it was at the start (no minutes are
    added). *)
Theorem admin_never_tracked cycles : forall db,
  (forall r, r ∈ ActiveSessions (main cycles db).2 ->
     row_user r = "admin" -> r ∈ ActiveSessions db)
  /\ Users (main cycles db).2 !! "admin" = Users db !! "admin".
Proof.
  induction cycles as [|c cycles IH]; intros db; simpl; [done|].
  destruct (cycle_admin c db) as [Hrows Husers].
  destruct (cycle c db) as [db'|db'] eqn:H; simpl in *; [|done].
  destruct (IH db') as [Hrows' Husers']. split.
  - intros r Hr Hadm. apply Hrows; [|done]. by apply Hrows'.
  - by rewrite Husers'.
Qed.

(** ** Atomicity *)

(** C2, the code at a failing input.  The record of alice is stored and the
    snapshot is empty.  With an engine that accepts the write of
    [update_user_time], the file holds, between the commit of
    [update_user_time] and [conn.commit()], the total of alice raised by 47
    next to her record, whose deletion is not committed.  With an engine
    that refuses the write, the call commits the deletion and the 47
    minutes are added nowhere. *)
Theorem totals_committed_apart :
  durable_states Scenario.accepting (Scenario.at_ 9 47 0) [] Scenario.alice_db
  = [Scenario.alice_db;
     mkDB {["alice" := 47]} [Scenario.alice_row];
     mkDB {["alice" := 47]} []]
  /\ durable_states Scenario.refusing (Scenario.at_ 9 47 0) [] Scenario.alice_db
     = [Scenario.alice_db; Scenario.alice_db; mkDB ∅ []].
Proof. split; vm_compute; reflexivity. Qed.


(** ** A logon time that does not parse *)

(** C3, the code at a failing input.  [server1] prints logon times as
    [1/1/2025 9:00 AM]; the script stores the last two words, [9:00 AM].
    When the session is gone, [strptime] raises [ValueError] in
    [check_completed_sessions], which catches [sqlite3.Error] only; the
    exception ends the loop of [main], and the third cycle is not run.
    The record is still stored. *)
Theorem unparsed_logon_stops_main :
  cycle (Scenario.alice_seen_us 10 0 0) Scenario.empty_db
  = Returned (mkDB ∅ [("5", "alice", "9:00 AM")])
  /\ Datetime.strptime "9:00 AM" = None
  /\ cycle (Scenario.nobody 10 5 0) (mkDB ∅ [("5", "alice", "9:00 AM")])
     = Raised (mkDB ∅ [("5", "alice", "9:00 AM")])
  /\ main [Scenario.alice_seen_us 10 0 0; Scenario.nobody 10 5 0;
           Scenario.alice_seen 10 6 0] Scenario.empty_db
     = (Stopped, mkDB ∅ [("5", "alice", "9:00 AM")]).
Proof. repeat split; vm_compute; reflexivity. Qed.

(** ** Rounding *)

Lemma round_div_nearest n :
  Z.abs (n - 60000000 * Py.round_div n 60000000) <= 30000000
  /\ (Z.abs (n - 60000000 * Py.round_div n 60000000) = 30000000 ->
      Z.even (Py.round_div n 60000000) = true).
Proof.
  unfold Py.round_div.
  pose proof (Z.div_mod n 60000000 ltac:(lia)) as Hdm.
  pose proof (Z.mod_pos_bound n 60000000 ltac:(lia)) as Hb.
  destruct (Z.ltb_spec (2 * (n mod 60000000)) 60000000) as [Hlt|Hge].
  - split; lia.
  - destruct (Z.ltb_spec 60000000 (2 * (n mod 60000000))) as [Hgt|Hle].
    + split; lia.
    + destruct (Z.even (n / 60000000)) eqn:Hev.
      * split; [lia|done].
      * split; [lia|]. intros _.
        replace (n / 60000000 + 1) with (Z.succ (n / 60000000)) by lia.
        rewrite Z.even_succ, <- Z.negb_even. by rewrite Hev.
Qed.

Lemma round_div_nonneg n : 0 <= n -> 0 <= Py.round_div n 60000000.
Proof.
  intros Hn. unfold Py.round_div.
  assert (0 <= n / 60000000) by (apply Z.div_pos; lia).
  repeat match goal with |- context [if ?b then _ else _] => destruct b end; lia.
Qed.

(** ** Totals over time *)

Lemma duration_nonneg now r : not_after now r = true -> 0 <= duration now r.
Proof.
  unfold not_after, duration, Datetime.minutes_between.
  destruct (Datetime.strptime (row_logon r)) as [T|]; [|lia].
  intros H%Z.leb_le. apply round_div_nonneg. lia.
Qed.

Lemma timely_cycle c db db' :
  forallb (not_after (clock c))
    (ended (session_ids (poll (quser c))) (ActiveSessions db)) = true ->
  cycle c db = Returned db' ->
  (forall u v, Users db !! u = Some v ->
     exists v', Users db' !! u = Some v' /\ v <= v')
  /\ ((forall u v, Users db !! u = Some v -> 0 <= v) ->
      forall u v, Users db' !! u = Some v -> 0 <= v).
Proof.
  intros Ht H. unfold cycle in H.
  apply check_completed_sessions_Returned in H as [-> _].
  assert (forall p, p ∈ charge (clock c)
            <$> ended (session_ids (poll (quser c))) (ActiveSessions db) ->
          0 <= p.2) as Hpos.
  { intros p Hp. apply list_elem_of_fmap in Hp as (r & -> & Hr).
    apply duration_nonneg. rewrite forallb_forall in Ht. apply Ht.
    by apply list_elem_of_In. }
  split.
  - intros u v Hv. by apply update_all_mono.
  - intros Hnn. by apply update_all_nonneg.
Qed.

(** Whatever the store answers: over every sequence of cycles in which
    each record is closed out at a time not before its stored logon time,
    the total of every user that has one never gets smaller, and if no
    stored total is negative at the start none is at the end. *)
Theorem totals_never_decrease cycles : forall db,
  timely cycles db = true ->
  (forall u v, Users db !! u = Some v ->
     exists v', Users (main cycles db).2 !! u = Some v' /\ v <= v')
  /\ ((forall u v, Users db !! u = Some v -> 0 <= v) ->
      forall u v, Users (main cycles db).2 !! u = Some v -> 0 <= v).
Proof.
  induction cycles as [|c cycles IH]; intros db Ht; simpl in *.
  - split; [|done]. intros u v Hv. exists v. split; [done|lia].
  - apply andb_true_iff in Ht as [Hc Hrest].
    destruct (cycle c db) as [db'|db'] eqn:H; simpl.
    + destruct (timely_cycle c db db' Hc H) as [Hmono Hnn].
      destruct (IH db' Hrest) as [Hmono' Hnn']. split.
      * intros u v Hv. destruct (Hmono u v Hv) as (v1 & Hv1 & Hle1).
        destruct (Hmono' u v1 Hv1) as (v2 & Hv2 & Hle2).
        exists v2. split; [done|lia].
      * intros Hpos. apply Hnn'. by apply Hnn.
    + unfold cycle in H. apply check_completed_sessions_Raised in H as [-> _].
      split; [|done]. intros u v Hv. exists v. split; [done|lia].
Qed.

(** ** One id, two sessions *)

(** A row the loop adds has an id that was not stored. *)
Lemma add_new_elem_fresh snap : forall tbl r,
  r ∈ add_new snap tbl ->
  r ∈ tbl
  \/ ((row_id r ∉ row_id <$> tbl) /\ exists s, s ∈ snap /\ r = row_of s).
Proof.
  induction snap as [|s snap IH]; intros tbl r Hr; simpl in Hr; [by left|].
  destruct (session_exists _ _) eqn:Hex.
  - apply IH in Hr as [?|(? & s' & ? & ?)]; [by left|].
    right. split; [done|]. exists s'. split; [by right|done].
  - apply session_exists_false in Hex.
    apply IH in Hr as [Hr|(Hn & s' & ? & ?)].
    + apply elem_of_app in Hr as [?|Hr]; [by left|].
      apply list_elem_of_singleton in Hr as ->.
      right. split; [done|]. exists s. split; [left|done].
    + right. rewrite fmap_app in Hn. apply not_elem_of_app in Hn as [? _].
      split; [done|]. exists s'. split; [by right|done].
Qed.

(** A user with no stored record and whose sessions in the snapshot all
    carry one id, under which the call stores the record [r0] of someone
    else: the call leaves the user without a record. *)
Lemma no_record_for_other_user e now snap db db' u sid u2 r0 :
  check_completed_sessions e now snap db = Returned db' ->
  Forall (fun r => row_user r ≠ u2) (ActiveSessions db) ->
  Forall (fun s => Username s = u2 -> SessionId s = sid) snap ->
  records u sid (ActiveSessions db') = [r0] -> row_user r0 ≠ u2 ->
  Forall (fun r => row_user r ≠ u2) (ActiveSessions db').
Proof.
  intros H Hdb Hsnap Hrec Hr0. apply Forall_forall. intros r Hr Hu2.
  destruct (rows_after_call _ _ _ _ _ _ H Hr) as [_ [Hold|(s & Hs & ->)]].
  - by apply (proj1 (Forall_forall _ _) Hdb r).
  - assert (SessionId s = sid) as Hid
      by (by apply (proj1 (Forall_forall _ _) Hsnap s)).
    assert (row_of s ∈ records u sid (ActiveSessions db')) as Hin
      by (apply records_elem; [done|by right]).
    rewrite Hrec in Hin. apply list_elem_of_singleton in Hin. congruence.
Qed.

Lemma no_rows_untouched e now snap db db' u2 :
  check_completed_sessions e now snap db = Returned db' ->
  Forall (fun r => row_user r ≠ u2) (ActiveSessions db) ->
  Users db' !! u2 = Users db !! u2.
Proof.
  intros H Hdb. apply (check_completed_sessions_untouched _ _ _ _ _ _ H).
  intros r Hr. apply list_elem_of_filter in Hr as [_ Hr].
  by apply (proj1 (Forall_forall _ _) Hdb).
Qed.

(** * Further properties of the code *)

(** ** The sessions [get_active_sessions] returns *)

Lemma chars_str l : Py.chars (Py.str l) = l.
Proof. apply list_ascii_of_string_of_list_ascii. Qed.






Lemma last_elem (l : list string) d : l ≠ [] -> List.last l d ∈ l.
Proof.
  induction l as [|a l IH]; [done|]. intros _.
  destruct l as [|b l]; [left|]. right. by apply IH.
Qed.

Lemma removelast_elem (l : list string) x : x ∈ removelast l -> x ∈ l.
Proof.
  induction l as [|a l IH]; [done|]. simpl.
  destruct l as [|b l]; [by intros ?%elem_of_nil|].
  intros [->|?]%elem_of_cons; [left|right; by apply IH].
Qed.

Lemma nth_elem (l : list string) i d : (i < length l)%nat -> nth i l d ∈ l.
Proof. intros H. apply list_elem_of_In. by apply nth_In. Qed.

(** What the loop body keeps of a line it turns into a session. *)
Lemma parse_line_fields line s :
  parse_line line = Some s ->
  Py.isdigit (SessionId s) = true /\ Username s ≠ "admin"
  /\ Username s ∈ Py.split line /\ SessionId s ∈ Py.split line
  /\ State s ∈ Py.split line
  /\ exists a b, a ∈ Py.split line /\ b ∈ Py.split line
                 /\ LogonTime s = a +:+ " " +:+ b.
Proof.
  unfold parse_line. destruct (5 <=? _)%nat eqn:Hlen; [|done].
  apply Nat.leb_le in Hlen.
  destruct (Py.isdigit _) eqn:Hdig; [|done]. simpl.
  case_bool_decide as Hadm; [done|]. intros [= <-]. simpl.
  split; [done|]. split; [done|].
  split; [apply nth_elem; lia|]. split; [apply nth_elem; lia|].
  split; [apply nth_elem; lia|].
  exists (Py.last2 (Py.split line)), (Py.last1 (Py.split line)).
  split; [|split; [|done]].
  - unfold Py.last2. apply removelast_elem. apply last_elem.
    destruct (Py.split line) as [|a [|b l]]; simpl in *; [lia|lia|done].
  - unfold Py.last1. apply last_elem. destruct (Py.split line); simpl in *; [lia|done].
Qed.

Lemma parse_lines_elem lines s :
  s ∈ parse_lines lines -> exists line, line ∈ lines /\ parse_line line = Some s.
Proof.
  induction lines as [|line lines IH]; simpl; [by intros ?%elem_of_nil|].
  destruct (parse_line line) as [s0|] eqn:Hl.
  - intros [->|Hs]%elem_of_cons.
    + exists line. split; [left|done].
    + destruct (IH Hs) as (l & ? & ?). exists l. split; [by right|done].
  - intros Hs. destruct (IH Hs) as (l & ? & ?). exists l. split; [by right|done].
Qed.

Lemma get_active_sessions_elem result s :
  s ∈ get_active_sessions result -> exists line, parse_line line = Some s.
Proof.
  destruct result as [rc out err| |]; simpl; try by intros ?%elem_of_nil.
  destruct (negb _); [by intros ?%elem_of_nil|].
  destruct (Py.contains _ _); [by intros ?%elem_of_nil|].
  intros (line & _ & ?)%parse_lines_elem. by exists line.
Qed.

Lemma poll_elem q s : s ∈ poll q -> exists line, parse_line line = Some s.
Proof.
  unfold poll. rewrite list_elem_of_In, in_flat_map.
  intros (server & _ & Hs). apply list_elem_of_In in Hs.
  by eapply get_active_sessions_elem.
Qed.

(** X1.  Whatever [quser] answers, every session that
    [get_active_sessions] returns has a session id that is not empty and
    consists of digits, and a username other than "admin". *)
Theorem returned_sessions_are_filtered result s :
  s ∈ get_active_sessions result ->
  Py.isdigit (SessionId s) = true /\ Username s ≠ "admin".
Proof.
  intros (line & Hl)%get_active_sessions_elem.
  by destruct (parse_line_fields _ _ Hl) as (? & ? & _).
Qed.

Lemma returned_sessions_are_filtered_witness :
  Scenario.alice_session
    ∈ get_active_sessions (Scenario.table [Scenario.alice_line])
  /\ Py.isdigit "5" = true /\ "alice" ≠ "admin".
Proof.
  assert (Scenario.alice_session
            ∈ get_active_sessions (Scenario.table [Scenario.alice_line])) as H
    by (apply (bool_decide_unpack _); vm_compute; exact I).
  split; [exact H|]. exact (returned_sessions_are_filtered _ _ H).
Defined.



(** ** Invariants of the [ActiveSessions] table *)

Lemma poll_well_formed q s : s ∈ poll q -> well_formed (row_of s).
Proof.
  intros (line & Hl)%poll_elem.
  by destruct (parse_line_fields _ _ Hl) as (? & ? & _).
Qed.

Lemma cycle_well_formed c db :
  Forall well_formed (ActiveSessions db) ->
  Forall well_formed (ActiveSessions (store (cycle c db))).
Proof.
  intros Hdb. destruct (cycle c db) as [db'|db'] eqn:H; unfold cycle in H; simpl.
  - apply Forall_forall. intros r Hr.
    destruct (rows_after_call _ _ _ _ _ _ H Hr) as [_ [Hold|(s & Hs & ->)]].
    + by apply (proj1 (Forall_forall _ _) Hdb).
    + by eapply poll_well_formed.
  - by apply check_completed_sessions_Raised in H as [-> _].
Qed.

(** X3.  If every stored record has a numeric session id and a username
    other than "admin", so has every record stored after any sequence of
    cycles, whatever the servers print and the store answers. *)
Theorem stored_records_stay_well_formed cycles : forall db,
  Forall well_formed (ActiveSessions db) ->
  Forall well_formed (ActiveSessions (main cycles db).2).
Proof.
  induction cycles as [|c cycles IH]; intros db Hdb; simpl; [done|].
  pose proof (cycle_well_formed c db Hdb) as Hc.
  destruct (cycle c db) as [db'|db']; simpl in *; [by apply IH|done].
Qed.

Lemma stored_records_stay_well_formed_witness :
  Forall well_formed (ActiveSessions Scenario.alice_db)
  /\ Forall well_formed
       (ActiveSessions (main [Scenario.id_reused 9 45 0; Scenario.same_id 9 50 0]
                          Scenario.alice_db).2).
Proof.
  assert (Forall well_formed (ActiveSessions Scenario.alice_db)) as H
    by (apply (bool_decide_unpack _); vm_compute; exact I).
  split; [exact H|]. exact (stored_records_stay_well_formed _ _ H).
Defined.

Lemma filter_ids_NoDup (P : Row -> Prop) `{!forall r, Decision (P r)} rows :
  NoDup (row_id <$> rows) -> NoDup (row_id <$> filter P rows).
Proof.
  induction rows as [|r rows IH]; [done|].
  rewrite fmap_cons, NoDup_cons. intros [Hr Hnd].
  rewrite filter_cons. destruct (decide (P r)); [|by apply IH].
  rewrite fmap_cons, NoDup_cons. split; [|by apply IH].
  intros Hin. apply Hr. apply list_elem_of_fmap in Hin as (r' & -> & Hr').
  apply list_elem_of_filter in Hr' as [_ ?]. by apply list_elem_of_fmap_2.
Qed.

(** The insert loop adds a row only under an id that has none. *)
Lemma add_new_NoDup snap : forall tbl,
  NoDup (row_id <$> tbl) -> NoDup (row_id <$> add_new snap tbl).
Proof.
  induction snap as [|s snap IH]; intros tbl Hnd; simpl; [done|].
  destruct (session_exists _ _) eqn:Hex; [by apply IH|].
  apply session_exists_false in Hex. apply IH.
  rewrite fmap_app. apply NoDup_app. split; [done|]. split.
  - intros x Hx [->|[]%elem_of_nil]%elem_of_cons. done.
  - apply NoDup_singleton.
Qed.

Lemma check_completed_sessions_NoDup e now snap db :
  NoDup (row_id <$> ActiveSessions db) ->
  NoDup (row_id <$> ActiveSessions (store (check_completed_sessions e now snap db))).
Proof.
  intros Hnd.
  destruct (check_completed_sessions e now snap db) as [db'|db'] eqn:H; simpl.
  - apply check_completed_sessions_Returned in H as [_ ->].
    apply add_new_NoDup. by apply filter_ids_NoDup.
  - by apply check_completed_sessions_Raised in H as [-> _].
Qed.

(** X4.  The primary key holds: if no two stored records share a session
    id, none do after a call of [check_completed_sessions], also when the
    snapshot lists an id more than once, nor after any sequence of
    cycles.  So the [INSERT] of the loop never meets a stored id. *)
Theorem session_ids_stay_unique db :
  NoDup (row_id <$> ActiveSessions db) ->
  (forall e now snap,
     NoDup (row_id <$> ActiveSessions (store (check_completed_sessions e now snap db))))
  /\ (forall cycles, NoDup (row_id <$> ActiveSessions (main cycles db).2)).
Proof.
  intros Hnd. split.
  - intros e now snap. by apply check_completed_sessions_NoDup.
  - intros cycles. revert db Hnd.
    induction cycles as [|c cycles IH]; intros db Hnd; simpl; [done|].
    pose proof (check_completed_sessions_NoDup (engine c) (clock c)
                  (poll (quser c)) db Hnd) as Hc.
    fold (cycle c db) in Hc.
    destruct (cycle c db) as [db'|db']; simpl in *; [by apply IH|done].
Qed.

Lemma session_ids_stay_unique_witness :
  NoDup (row_id <$> ActiveSessions Scenario.alice_db)
  /\ NoDup (row_id <$> ActiveSessions
              (store (check_completed_sessions Scenario.accepting
                        (Scenario.at_ 9 45 0)
                        [Scenario.bob5; Scenario.alice3; Scenario.bob3; Scenario.bob5]
                        Scenario.alice_db))).
Proof.
  assert (NoDup (row_id <$> ActiveSessions Scenario.alice_db)) as H
    by (apply (bool_decide_unpack _); vm_compute; exact I).
  split; [exact H|].
  destruct (session_ids_stay_unique _ H) as [Hcall _]. apply Hcall.
Defined.



(** ** A cycle without any answer *)




(** ** When a call raises *)







(** ** The [Users] table *)

Lemma update_all_keeps_rows e cs : forall i (users : gmap string Z) u,
  is_Some (users !! u) -> is_Some (update_all e i cs users !! u).
Proof.
  induction cs as [|[username d] cs IH]; intros i users u Hu; simpl; [done|].
  apply IH.
  destruct (update_user_time_lookup (e i) username d users u) as [->|[_ ->]];
    [done|by eexists].
Qed.

Lemma cycle_keeps_user_rows c db u :
  is_Some (Users db !! u) -> is_Some (Users (store (cycle c db)) !! u).
Proof.
  intros Hu. destruct (cycle c db) as [db'|db'] eqn:H; unfold cycle in H; simpl.
  - apply check_completed_sessions_Returned in H as [-> _].
    by apply update_all_keeps_rows.
  - by apply check_completed_sessions_Raised in H as [-> _].
Qed.

(** X11.  No row of [Users] is ever removed: the users that have a total
    before a sequence of cycles have one after it, whatever the servers
    print and the store answers. *)
Theorem user_rows_are_never_removed cycles : forall db,
  dom (Users db) ⊆ dom (Users (main cycles db).2).
Proof.
  induction cycles as [|c cycles IH]; intros db; simpl; [done|].
  assert (dom (Users db) ⊆ dom (Users (store (cycle c db)))) as Hc.
  { intros u Hu. apply elem_of_dom. apply cycle_keeps_user_rows.
    by apply elem_of_dom. }
  destruct (cycle c db) as [db'|db']; simpl in *; [|done].
  etrans; [exact Hc|apply IH].
Qed.



(** ** The duration *)

Lemma round_div_mono n1 n2 :
  n1 <= n2 -> Py.round_div n1 60000000 <= Py.round_div n2 60000000.
Proof.
  intros Hle. unfold Py.round_div.
  pose proof (Z.div_mod n1 60000000 ltac:(lia)) as Hd1.
  pose proof (Z.div_mod n2 60000000 ltac:(lia)) as Hd2.
  pose proof (Z.mod_pos_bound n1 60000000 ltac:(lia)) as Hb1.
  pose proof (Z.mod_pos_bound n2 60000000 ltac:(lia)) as Hb2.
  assert (n1 / 60000000 <= n2 / 60000000) as Hq by (apply Z.div_le_mono; lia).
  destruct (Z.eq_dec (n1 / 60000000) (n2 / 60000000)) as [Heq|Hne].
  - rewrite <- Heq in *.
    destruct (Z.ltb_spec (2 * (n1 mod 60000000)) 60000000);
      destruct (Z.ltb_spec 60000000 (2 * (n1 mod 60000000)));
      destruct (Z.ltb_spec (2 * (n2 mod 60000000)) 60000000);
      destruct (Z.ltb_spec 60000000 (2 * (n2 mod 60000000)));
      destruct (Z.even (n1 / 60000000)); lia.
  - destruct (Z.ltb_spec (2 * (n1 mod 60000000)) 60000000);
      destruct (Z.ltb_spec 60000000 (2 * (n1 mod 60000000)));
      destruct (Z.ltb_spec (2 * (n2 mod 60000000)) 60000000);
      destruct (Z.ltb_spec 60000000 (2 * (n2 mod 60000000)));
      destruct (Z.even (n1 / 60000000));
      destruct (Z.even (n2 / 60000000)); lia.
Qed.

(** X14.  A later closeout never gives fewer minutes: for one stored
    logon time the duration grows with the clock. *)
Theorem duration_grows_with_the_clock now1 now2 T :
  now1 <= now2 ->
  Datetime.minutes_between now1 T <= Datetime.minutes_between now2 T.
Proof.
  intros Hle. unfold Datetime.minutes_between. apply round_div_mono. lia.
Qed.

Lemma duration_grows_with_the_clock_witness :
  Scenario.at_ 9 47 0 <= Scenario.at_ 9 47 30
  /\ Datetime.minutes_between (Scenario.at_ 9 47 0) (Scenario.at_ 9 0 0)
     <= Datetime.minutes_between (Scenario.at_ 9 47 30) (Scenario.at_ 9 0 0).
Proof.
  assert (Scenario.at_ 9 47 0 <= Scenario.at_ 9 47 30) as H
    by (vm_compute; discriminate).
  split; [exact H|]. exact (duration_grows_with_the_clock _ _ _ H).
Defined.

(** ** The header line *)

Lemma lstrip_Forall (P : ascii -> Prop) l : Forall P l -> Forall P (Py.lstrip l).
Proof.
  induction l as [|c l IH]; intros H; simpl; [done|].
  destruct (Py.isspace c); [|done]. apply IH. by apply Forall_cons in H as [_ ?].
Qed.

Lemma rev_Forall (P : ascii -> Prop) l : Forall P l -> Forall P (rev l).
Proof.
  rewrite !Forall_forall. intros H x Hx. apply H.
  apply list_elem_of_In. apply in_rev. by apply list_elem_of_In.
Qed.

Lemma splitlines_go_one_line l : forall cur,
  Forall (fun c => Py.is_linebreak c = false) l ->
  tail (Py.splitlines_go cur l) = [].
Proof.
  induction l as [|c l IH]; intros cur H; simpl.
  - by destruct cur.
  - apply Forall_cons in H as [Hc Hl]. rewrite Hc. by apply IH.
Qed.

(** X16.  The first line of the output is always taken for the header: an
    output without a line break gives no session, also when its one line
    is the row of a session. *)
Theorem one_line_output_gives_no_session returncode stdout stderr :
  Forall (fun c => Py.is_linebreak c = false) (Py.chars stdout) ->
  get_active_sessions (Completed returncode stdout stderr) = [].
Proof.
  intros H. simpl. destruct (negb _); [done|].
  destruct (Py.contains _ _); [done|].
  unfold Py.splitlines, Py.strip. rewrite chars_str.
  rewrite splitlines_go_one_line; [done|].
  by apply rev_Forall, lstrip_Forall, rev_Forall, lstrip_Forall.
Qed.

Lemma one_line_output_gives_no_session_witness :
  Forall (fun c => Py.is_linebreak c = false) (Py.chars Scenario.alice_line)
  /\ get_active_sessions (Completed 0 Scenario.alice_line "") = [].
Proof.
  assert (Forall (fun c => Py.is_linebreak c = false)
            (Py.chars Scenario.alice_line)) as H
    by (apply (bool_decide_unpack _); vm_compute; exact I).
  split; [exact H|]. exact (one_line_output_gives_no_session 0 _ "" H).
Defined.

(** ** [initialize_database] and a restart *)

Lemma initialize_database_to_file a1 a2 db :
  initialize_database a1 a2 (to_file db) = to_file db.
Proof. by destruct a1, a2, db. Qed.

Lemma initialize_database_Done f :
  initialize_database Done Done f
  = to_file (mkDB (default ∅ (users_table f)) (default [] (active_table f))).
Proof. by destruct f as [[?|] [?|]]. Qed.

Lemma main_loop_to_file cycles : forall db,
  main_loop cycles (to_file db)
  = ((main cycles db).1, to_file (main cycles db).2).
Proof.
  induction cycles as [|c cycles IH]; intros db; simpl; [done|].
  unfold cycle, check_completed_sessions_file. destruct db as [users rows].
  cbn [to_file active_table users_table Users ActiveSessions].
  destruct (check_completed_sessions _ _ _ _) as [db'|db']; [apply IH|done].
Qed.

Lemma main_app_after l1 : forall l2 db db1,
  main l1 db = (Looping, db1) -> main (l1 ++ l2) db = main l2 db1.
Proof.
  induction l1 as [|c l1 IH]; intros l2 db db1 H; simpl in *.
  - by injection H as <-.
  - destruct (cycle c db) as [db'|db']; [by apply IH|done].
Qed.

(** X17.  A restart loses nothing.  When the script, started on any file
    with both tables created, is still looping after the cycles [l1], a
    new start on the file it left (whatever the engine answers to the two
    [CREATE TABLE IF NOT EXISTS]) followed by the cycles [l2] ends as one
    run through [l1] and [l2] does: the stored records, with their logon
    times, and the totals are taken up as they were. *)
Theorem restart_resumes a1 a2 l1 l2 f f1 :
  run_script Done Done l1 f = (Looping, f1) ->
  run_script a1 a2 l2 f1 = run_script Done Done (l1 ++ l2) f.
Proof.
  unfold run_script. rewrite initialize_database_Done.
  set (db0 := mkDB _ _). rewrite !main_loop_to_file.
  destruct (main l1 db0) as [p db1] eqn:H1. simpl.
  intros [= -> <-].
  rewrite initialize_database_to_file, main_loop_to_file.
  by rewrite (main_app_after _ _ _ _ H1).
Qed.

Lemma restart_resumes_witness :
  run_script Done Done [Scenario.alice_seen 9 5 0] fresh_file
  = (Looping, to_file Scenario.alice_db)
  /\ run_script SqliteError Done [Scenario.nobody 9 47 0]
       (to_file Scenario.alice_db)
     = run_script Done Done
         ([Scenario.alice_seen 9 5 0] ++ [Scenario.nobody 9 47 0])%list fresh_file.
Proof.
  assert (run_script Done Done [Scenario.alice_seen 9 5 0] fresh_file
          = (Looping, to_file Scenario.alice_db)) as H
    by (vm_compute; reflexivity).
  split; [exact H|]. exact (restart_resumes _ _ _ _ _ _ H).
Defined.

Lemma main_loop_no_table cycles : forall f,
  active_table f = None -> main_loop cycles f = (Looping, f).
Proof.
  induction cycles as [|c cycles IH]; intros f Hf; simpl; [done|].
  unfold check_completed_sessions_file. rewrite Hf. by apply IH.
Qed.

(** X18.  A failed initialisation does not stop the script.  When the
    table [ActiveSessions] is missing and one of the two statements of
    [initialize_database] fails, the table is still missing afterwards,
    and the loop runs through every cycle without raising and without
    writing: no session is ever stored and no total recorded. *)
Theorem failed_initialisation_loops_idle a1 a2 cycles f :
  active_table f = None ->
  a1 = SqliteError \/ a2 = SqliteError ->
  active_table (initialize_database a1 a2 f) = None
  /\ run_script a1 a2 cycles f = (Looping, initialize_database a1 a2 f).
Proof.
  intros Hf Ha.
  assert (active_table (initialize_database a1 a2 f) = None) as Hnone.
  { destruct a1, a2, Ha as [Ha|Ha]; try done; by destruct f. }
  split; [done|]. unfold run_script. by apply main_loop_no_table.
Qed.

Lemma failed_initialisation_loops_idle_witness :
  active_table fresh_file = None
  /\ run_script Done SqliteError
       [Scenario.alice_seen 9 5 0; Scenario.nobody 9 47 0] fresh_file
     = (Looping, mkFile (Some ∅) None).
Proof.
  assert (active_table fresh_file = None) as H by reflexivity.
  split; [exact H|].
  exact (proj2 (failed_initialisation_loops_idle Done SqliteError
                  [Scenario.alice_seen 9 5 0; Scenario.nobody 9 47 0]
                  fresh_file H (or_intror eq_refl))).
Defined.

(** * The script under the lock *)

(** ** What becomes of the totals *)

Lemma update_all_locked cs : forall i (users : gmap string Z),
  update_all locked i cs users = users.
Proof.
  induction cs as [|[username d] cs IH]; intros i users; simpl; [done|].
  rewrite IH. unfold update_user_time, locked. by case_bool_decide.
Qed.

Lemma cycle_under_lock_users c db :
  Users (store (cycle (under_lock c) db)) = Users db.
Proof.
  destruct (cycle (under_lock c) db) as [db'|db'] eqn:H; unfold cycle in H; simpl.
  - apply check_completed_sessions_Returned in H as [-> _].
    apply update_all_locked.
  - by apply check_completed_sessions_Raised in H as [-> _].
Qed.

Lemma main_under_lock_users cycles : forall db,
  Users (main (under_lock <$> cycles) db).2 = Users db.
Proof.
  induction cycles as [|c cycles IH]; intros db; simpl; [done|].
  pose proof (cycle_under_lock_users c db) as Hc.
  destruct (cycle (under_lock c) db) as [db'|db']; simpl in *; [|done].
  by rewrite IH.
Qed.

(** C4.  In the runs of the script, for every sequence of cycles, every
    store, every stored logon time and every clock, no cycle changes a row
    of [Users]: each write of [update_user_time] is refused under the lock
    of the outer transaction.  So the total of every user is after the
    cycles what it was before (it never decreases), no total becomes
    negative, and a script started on a new file keeps [Users] empty. *)
Theorem totals_unchanged_under_lock cycles db :
  Users (main (under_lock <$> cycles) db).2 = Users db
  /\ (forall u v, Users db !! u = Some v ->
        exists v', Users (main (under_lock <$> cycles) db).2 !! u = Some v'
                   /\ v <= v')
  /\ ((forall u v, Users db !! u = Some v -> 0 <= v) ->
      forall u v, Users (main (under_lock <$> cycles) db).2 !! u = Some v ->
                  0 <= v)
  /\ users_table (run_script Done Done (under_lock <$> cycles) fresh_file).2
     = Some ∅.
Proof.
  pose proof (main_under_lock_users cycles db) as HU.
  split; [done|]. split; [|split].
  - intros u v Hv. exists v. rewrite HU. split; [done|lia].
  - intros Hpos u v. rewrite HU. apply Hpos.
  - unfold run_script. rewrite initialize_database_Done, main_loop_to_file.
    simpl. by rewrite main_under_lock_users.
Qed.

(** C5, the code at a failing input.  Alice logged on at 09:00; her
    session is reported at 10:00 and at 10:05 and is gone at 10:06.  The
    two cycles that report it store her record and add nothing.  The
    closing cycle computes 66 minutes, from the logon time and not from
    the first observation, and calls [update_user_time]; the write is
    refused under the lock, the record is deleted, and nothing is added to
    the total of alice, in this cycle or later. *)
Theorem observed_session_adds_nothing :
  main (under_lock <$> [Scenario.alice_seen 10 0 0; Scenario.alice_seen 10 5 0])
    Scenario.empty_db
  = (Looping, Scenario.alice_db)
  /\ closeout (session_ids []) (Scenario.at_ 10 6 0)
       [Scenario.alice_row] [] [Scenario.alice_row]
     = Some ([("alice", 66)], [])
  /\ main (under_lock <$> [Scenario.alice_seen 10 0 0; Scenario.alice_seen 10 5 0;
                           Scenario.nobody 10 6 0; Scenario.nobody 10 7 0])
       Scenario.empty_db
     = (Looping, mkDB ∅ []).
Proof. repeat split; vm_compute; reflexivity. Qed.

(** C7, the code at a failing input.  The session of alice with logon
    "01.01.2025 09:00" is reported in five cycles and gone at 09:47.  The
    closing call computes [round(2820 / 60) = 47] and calls
    [update_user_time("alice", 47)]; the write is refused under the lock,
    and the total of alice is not raised by 47: she has no row in
    [Users]. *)
Theorem closeout_minutes_not_recorded :
  closeout (session_ids []) (Scenario.at_ 9 47 0)
    [Scenario.alice_row] [] [Scenario.alice_row]
  = Some ([("alice", 47)], [])
  /\ main (under_lock <$> [Scenario.alice_seen 9 5 0; Scenario.alice_seen 9 6 0;
                           Scenario.alice_seen 9 7 0; Scenario.alice_seen 9 8 0;
                           Scenario.alice_seen 9 9 0; Scenario.nobody 9 47 0])
       Scenario.empty_db
     = (Looping, mkDB ∅ [])
  /\ Users (mkDB ∅ []) !! "alice" = None.
Proof. repeat split; vm_compute; reflexivity. Qed.

(** C10, the code at a failing input.  The record of alice is stored under
    id 5 with logon 09:00; at 09:45 the server reports a session of bob
    under id 5 with logon 09:40, and at 10:00 no session.  The first cycle
    leaves the record of alice as stored.  The closing call computes 60
    minutes for alice, the stored user, from the stored logon time, and
    calls [update_user_time("alice", 60)]; the write is refused under the
    lock, and the duration is attributed to nobody. *)
Theorem reused_id_closeout_not_recorded :
  cycle (under_lock (Scenario.id_reused 9 45 0)) Scenario.alice_db
  = Returned Scenario.alice_db
  /\ closeout (session_ids []) (Scenario.at_ 10 0 0)
       [Scenario.alice_row] [] [Scenario.alice_row]
     = Some ([("alice", 60)], [])
  /\ main (under_lock <$> [Scenario.id_reused 9 45 0; Scenario.nobody 10 0 0])
       Scenario.alice_db
     = (Looping, mkDB ∅ []).
Proof. repeat split; vm_compute; reflexivity. Qed.

(** ** The rows under one id *)

Lemma by_id_nil sid rows : sid ∉ row_id <$> rows -> by_id sid rows = [].
Proof.
  intros Hn. apply filter_none. intros r Hr Hid. apply Hn.
  rewrite <- Hid. by apply list_elem_of_fmap_2.
Qed.

Lemma by_id_elem sid rows r : r ∈ by_id sid rows <-> r ∈ rows /\ row_id r = sid.
Proof. unfold by_id. rewrite list_elem_of_filter. tauto. Qed.

(** The id is stored: the insert loop adds no row under it. *)
Lemma add_new_by_id_keep sid snap : forall tbl,
  sid ∈ row_id <$> tbl -> by_id sid (add_new snap tbl) = by_id sid tbl.
Proof.
  induction snap as [|s snap IH]; intros tbl Hsid; simpl; [done|].
  destruct (session_exists _ _) eqn:Hex; [by apply IH|].
  apply session_exists_false in Hex.
  rewrite IH by (rewrite fmap_app; apply elem_of_app; by left).
  unfold by_id. rewrite filter_app.
  rewrite filter_cons_False, filter_nil, app_nil_r; [done|].
  intros Hid. apply Hex. change (SessionId s = sid) in Hid. by rewrite Hid.
Qed.

(** No session of the snapshot has the id. *)
Lemma add_new_by_id_none sid snap : forall tbl,
  (forall s, s ∈ snap -> SessionId s ≠ sid) ->
  by_id sid (add_new snap tbl) = by_id sid tbl.
Proof.
  induction snap as [|s snap IH]; intros tbl H; simpl; [done|].
  assert (forall s', s' ∈ snap -> SessionId s' ≠ sid) as H'
    by (intros s' Hs'; apply H; by right).
  destruct (session_exists _ _); [by apply IH|].
  rewrite IH by done. unfold by_id. rewrite filter_app.
  rewrite filter_cons_False, filter_nil, app_nil_r; [done|].
  apply (H s). left.
Qed.

(** The id is not stored and [s] is the first session of the snapshot that
    has it: the loop stores the row of [s] under it and no other. *)
Lemma add_new_by_id_open l1 s l2 tbl :
  SessionId s ∉ row_id <$> tbl ->
  (forall s', s' ∈ l1 -> SessionId s' ≠ SessionId s) ->
  by_id (SessionId s) (add_new (l1 ++ s :: l2) tbl) = [row_of s].
Proof.
  intros Hn H1. rewrite add_new_snap_app. simpl.
  assert (by_id (SessionId s) (add_new l1 tbl) = []) as Hnil
    by (rewrite add_new_by_id_none by done; by apply by_id_nil).
  assert (session_exists (SessionId s) (add_new l1 tbl) = false) as ->.
  { apply session_exists_false. intros Hin.
    apply list_elem_of_fmap in Hin as (r & Hid & Hr).
    assert (r ∈ by_id (SessionId s) (add_new l1 tbl)) as Hr'
      by (by apply by_id_elem).
    rewrite Hnil in Hr'. by apply elem_of_nil in Hr'. }
  rewrite add_new_by_id_keep.
  - unfold by_id in *. rewrite filter_app, Hnil. simpl.
    by rewrite filter_cons_True, filter_nil.
  - rewrite fmap_app. apply elem_of_app. right.
    apply list_elem_of_fmap. exists (row_of s). split; [done|left].
Qed.

Lemma by_id_kept sid ids rows :
  by_id sid (kept ids rows) = kept ids (by_id sid rows).
Proof. apply filter_swap. Qed.

Lemma by_id_ended sid ids rows :
  by_id sid (ended ids rows) = ended ids (by_id sid rows).
Proof. apply filter_swap. Qed.

(** C9, the run that refutes it: [server1] reports session 3 of alice and
    [server2] session 3 of bob.  The cycle stores the record of alice and
    none of bob; when both sessions are gone neither total is raised. *)
Lemma same_id_one_record :
  poll (quser (under_lock (Scenario.same_id 10 0 0)))
  = [Scenario.alice3; Scenario.bob3]
  /\ cycle (under_lock (Scenario.same_id 10 0 0)) Scenario.empty_db
     = Returned (mkDB ∅ [row_of Scenario.alice3])
  /\ (row_of Scenario.bob3 ∉ [row_of Scenario.alice3])
  /\ main (under_lock <$> [Scenario.same_id 10 0 0; Scenario.nobody 10 5 0])
       Scenario.empty_db
     = (Looping, mkDB ∅ []).
Proof.
  split; [vm_compute; reflexivity|]. split; [vm_compute; reflexivity|].
  split; [|vm_compute; reflexivity].
  intros [Heq|[]%elem_of_nil]%elem_of_cons. discriminate Heq.
Qed.

(** C9 (amended).  Two sessions [s1] and [s2] of different users carry
    the same id in one snapshot, [s1] being the first session of the
    snapshot with that id, and the id is not stored.  A call that returns
    stores one record under the id, that of [s1], and none for [s2].  In
    a later call that returns and no longer finds the id in its snapshot,
    that record is closed out and deleted, and the one entry it gives to
    [completed_sessions] names the user of [s1] with the duration since
    the logon time of [s1]; [update_user_time] is called for the entries
    of [completed_sessions] and for nothing of [s2]. *)
Theorem same_id_first_session_wins e now l1 s1 l2 s2 db db1 :
  SessionId s1 ∉ row_id <$> ActiveSessions db ->
  Forall (fun s => SessionId s ≠ SessionId s1) l1 ->
  s2 ∈ l2 -> SessionId s2 = SessionId s1 -> Username s2 ≠ Username s1 ->
  check_completed_sessions e now (l1 ++ s1 :: l2) db = Returned db1 ->
  by_id (SessionId s1) (ActiveSessions db1) = [row_of s1]
  /\ (row_of s2 ∉ ActiveSessions db1)
  /\ (forall e2 now2 snap2 db2 T1,
        SessionId s1 ∉ session_ids snap2 ->
        Datetime.strptime (LogonTime s1) = Some T1 ->
        check_completed_sessions e2 now2 snap2 db1 = Returned db2 ->
        charge now2
          <$> by_id (SessionId s1) (ended (session_ids snap2) (ActiveSessions db1))
        = [(Username s1, Datetime.minutes_between now2 T1)]
        /\ (SessionId s1 ∉ row_id <$> ActiveSessions db2)
        /\ Users db2
           = update_all e2 0
               (charge now2 <$> ended (session_ids snap2) (ActiveSessions db1))
               (Users db1)).
Proof.
  intros Hn Hl1 Hin Hid Hne H.
  assert (by_id (SessionId s1) (ActiveSessions db1) = [row_of s1]) as Hone.
  { pose proof H as [_ ->]%check_completed_sessions_Returned.
    apply add_new_by_id_open.
    - intros (r & Hr & Hk)%list_elem_of_fmap. apply Hn.
      apply list_elem_of_filter in Hk as [_ Hk]. rewrite Hr.
      by apply list_elem_of_fmap_2.
    - intros s Hs. by apply (proj1 (Forall_forall _ _) Hl1). }
  split; [done|]. split.
  - intros Hr.
    assert (row_of s2 ∈ by_id (SessionId s1) (ActiveSessions db1)) as Hr'
      by (by apply by_id_elem).
    rewrite Hone in Hr'. apply list_elem_of_singleton in Hr'.
    apply Hne. by injection Hr'.
  - intros e2 now2 snap2 db2 T1 Hout HT H2. split; [|split].
    + rewrite by_id_ended, Hone. rewrite ended_cons_out by done.
      unfold ended. rewrite filter_nil. simpl.
      unfold charge, duration. simpl. by rewrite HT.
    + intros (r & Hr & Hk)%list_elem_of_fmap.
      destruct (rows_after_call _ _ _ _ _ _ H2 Hk) as [Hin2 _].
      apply Hout. by rewrite Hr.
    + by apply check_completed_sessions_Returned in H2 as [? _].
Qed.

Lemma same_id_first_session_wins_witness :
  check_completed_sessions locked (Scenario.at_ 10 0 0)
    [Scenario.alice3; Scenario.bob3] Scenario.empty_db
  = Returned (mkDB ∅ [row_of Scenario.alice3])
  /\ by_id "3" [row_of Scenario.alice3] = [row_of Scenario.alice3]
  /\ (row_of Scenario.bob3 ∉ [row_of Scenario.alice3])
  /\ check_completed_sessions locked (Scenario.at_ 10 5 0) []
       (mkDB ∅ [row_of Scenario.alice3])
     = Returned (mkDB ∅ [])
  /\ charge (Scenario.at_ 10 5 0)
       <$> by_id "3" (ended (session_ids []) [row_of Scenario.alice3])
     = [("alice", Datetime.minutes_between (Scenario.at_ 10 5 0) (Scenario.at_ 9 0 0))].
Proof.
  assert (check_completed_sessions locked (Scenario.at_ 10 0 0)
            ([] ++ Scenario.alice3 :: [Scenario.bob3])%list Scenario.empty_db
          = Returned (mkDB ∅ [row_of Scenario.alice3])) as H
    by (vm_compute; reflexivity).
  assert (check_completed_sessions locked (Scenario.at_ 10 5 0) []
            (mkDB ∅ [row_of Scenario.alice3])
          = Returned (mkDB ∅ [])) as H2
    by (vm_compute; reflexivity).
  destruct (same_id_first_session_wins locked (Scenario.at_ 10 0 0)
              [] Scenario.alice3 [Scenario.bob3] Scenario.bob3
              Scenario.empty_db (mkDB ∅ [row_of Scenario.alice3]))
    as (Hone & Hbob & Hclose); try exact H.
  - apply (bool_decide_unpack _). vm_compute. exact I.
  - apply (bool_decide_unpack _). vm_compute. exact I.
  - apply (bool_decide_unpack _). vm_compute. exact I.
  - reflexivity.
  - discriminate.
  - destruct (Hclose locked (Scenario.at_ 10 5 0) [] (mkDB ∅ [])
                (Scenario.at_ 9 0 0)) as (Hcharge & _ & _).
    + apply (bool_decide_unpack _). vm_compute. exact I.
    + vm_compute. reflexivity.
    + exact H2.
    + split; [exact H|]. split; [exact Hone|]. split; [exact Hbob|].
      split; [exact H2|exact Hcharge].
Defined.

(** ** A stored id that is reported again *)

(** X19.  A call that returns keeps every stored record whose id is in the
    snapshot exactly as stored, and stores no other row under that id,
    whatever username and logon time the snapshot gives for the id and
    whatever the store answers. *)
Theorem observed_record_is_kept e now snap db db1 r :
  check_completed_sessions e now snap db = Returned db1 ->
  r ∈ ActiveSessions db -> row_id r ∈ session_ids snap ->
  r ∈ ActiveSessions db1
  /\ forall r', r' ∈ ActiveSessions db1 -> row_id r' = row_id r ->
                r' ∈ ActiveSessions db.
Proof.
  intros H Hr Hin.
  assert (r ∈ kept (session_ids snap) (ActiveSessions db)) as Hk
    by (by apply list_elem_of_filter).
  pose proof H as [_ Hrows]%check_completed_sessions_Returned.
  rewrite Hrows. split; [by apply add_new_mono|].
  intros r' Hr' Hid. apply add_new_elem_fresh in Hr' as [Hr'|[Hn _]].
  - by apply list_elem_of_filter in Hr' as [_ ?].
  - exfalso. apply Hn. rewrite Hid. by apply list_elem_of_fmap_2.
Qed.

Lemma observed_record_is_kept_witness :
  check_completed_sessions locked (Scenario.at_ 9 45 0) [Scenario.bob5]
    Scenario.alice_db
  = Returned Scenario.alice_db
  /\ Scenario.alice_row ∈ ActiveSessions Scenario.alice_db.
Proof.
  assert (check_completed_sessions locked (Scenario.at_ 9 45 0) [Scenario.bob5]
            Scenario.alice_db
          = Returned Scenario.alice_db) as H
    by (vm_compute; reflexivity).
  split; [exact H|].
  refine (proj1 (observed_record_is_kept _ _ _ _ _ Scenario.alice_row H _ _)).
  - apply (bool_decide_unpack _). vm_compute. exact I.
  - apply (bool_decide_unpack _). vm_compute. exact I.
Defined.
